(** * The model builder of the management SDK (src/model.ts)

    A shallow embedding of [ModelClass] and [extractFieldValidations].

    The builder methods take loosely typed argument bags ([fieldArgs: any])
    that they update in place before handing them to a [Field] change item.
    The bags are JSON-like: they end up serialised as the variables of a
    batch mutation.  They are embedded as finite maps from property names to
    JavaScript values, and an in-place update of a bag (or of an object
    nested in it) is a functional update of the map. *)

From stdpp Require Import gmap strings list fin_maps pretty.

Set Warnings "-register-all".
Local Open Scope string_scope.

(** ** JavaScript values *)

Inductive value : Type :=
| VUndefined
| VNull
| VBool (b : bool)
| VNum (n : Z)
| VStr (s : string)
| VArr (l : list value)
| VObj (o : gmap string value).

(** A plain object: its own enumerable properties. *)
Abbreviation obj := (gmap string value).

(** [o.k]: a property that is not there reads as [undefined]. *)
Definition get (k : string) (o : obj) : value := default VUndefined (o !! k).

(** Truthiness, as tested by [if (v)], [!v] and [v || w]. *)
Definition truthy (v : value) : bool :=
  match v with
  | VUndefined | VNull => false
  | VBool b => b
  | VNum n => negb (n =? 0)%Z
  | VStr s => negb (String.eqb s "")
  | VArr _ | VObj _ => true
  end.

(** [a || b] *)
Definition or_else (a b : value) : value := if truthy a then a else b.

(** [a === b].  Objects and arrays are only identical to themselves;
    model.ts compares with primitive constants only, for which [false] on an
    object or an array is exact. *)
Definition strict_eq (a b : value) : bool :=
  match a, b with
  | VUndefined, VUndefined => true
  | VNull, VNull => true
  | VBool x, VBool y => Bool.eqb x y
  | VNum x, VNum y => (x =? y)%Z
  | VStr x, VStr y => String.eqb x y
  | _, _ => false
  end.

(** [Array.isArray(v)] *)
Definition isArray (v : value) : bool :=
  match v with VArr _ => true | _ => false end.

(** The string a value becomes inside a template literal, for objects and
    arrays that have no [toString] of their own.  Inside
    [Array.prototype.join], [null] and [undefined] elements are empty. *)
Fixpoint to_string (v : value) : string :=
  match v with
  | VUndefined => "undefined"
  | VNull => "null"
  | VBool b => if b then "true" else "false"
  | VNum n => pretty n
  | VStr s => s
  | VArr l =>
      String.concat ","
        (map (fun x => match x with
                       | VUndefined | VNull => ""
                       | _ => to_string x
                       end) l)
  | VObj _ => "[object Object]"
  end.

(** ** Outcomes of a call *)

Inductive error : Type :=
| Error (message : string)   (* [throw new Error(message)] in model.ts *)
| TypeError.                 (* raised by the engine: a property of
                                [undefined] or [null], or a property stored
                                on a primitive in strict mode *)

(** [Unmodelled]: the call stores a named property on an array, which the
    JSON-like values above cannot hold. *)
Inductive outcome (A : Type) : Type :=
| Return (a : A)
| Throw (e : error)
| Unmodelled.
Arguments Return {A} a.
Arguments Throw {A} e.
Arguments Unmodelled {A}.

#[global] Instance outcome_ret : MRet outcome := fun A a => Return a.
#[global] Instance outcome_bind : MBind outcome := fun A B f m =>
  match m with
  | Return a => f a
  | Throw e => Throw e
  | Unmodelled => Unmodelled
  end.

(** [v?.k] for the property names model.ts reads this way ([range],
    [characters], [listItemCount], [matches], [notMatches]): none of them
    is a property of a primitive or of an array. *)
Definition opt_get (v : value) (k : string) : value :=
  match v with
  | VObj o => get k o
  | _ => VUndefined
  end.

(** [v.k] where [v] may be anything, for the property names model.ts reads
    this way ([headers], [payloadFieldApiIds], [method], [name]). *)
Definition get_prop (v : value) (k : string) : outcome value :=
  match v with
  | VUndefined | VNull => Throw TypeError
  | VObj o => Return (get k o)
  | _ => Return VUndefined
  end.

(** [v.k = x] where [v] may be anything; gives the updated [v]. *)
Definition set_prop (v : value) (k : string) (x : value) : outcome value :=
  match v with
  | VObj o => Return (VObj (<[k := x]> o))
  | VArr _ => Unmodelled
  | _ => Throw TypeError
  end.

(** [o.k1.k2 = x]: the object nested under [k1] is updated in place. *)
Definition set_in (k1 k2 : string) (x : value) (o : obj) : outcome obj :=
  r ← set_prop (get k1 o) k2 x;
  mret (<[k1 := r]> o).

(** [v.length] *)
Definition length_of (v : value) : outcome value :=
  match v with
  | VUndefined | VNull => Throw TypeError
  | VArr l => Return (VNum (Z.of_nat (length l)))
  | VStr s => Return (VNum (Z.of_nat (String.length s)))
  | VObj o => Return (get "length" o)
  | _ => Return VUndefined
  end.

(** [v.constructor.name]: an object literal inherits [Object] as its
    constructor unless it has a property of that name of its own. *)
Definition constructor_name (v : value) : outcome value :=
  match v with
  | VUndefined | VNull => Throw TypeError
  | VBool _ => Return (VStr "Boolean")
  | VNum _ => Return (VStr "Number")
  | VStr _ => Return (VStr "String")
  | VArr _ => Return (VStr "Array")
  | VObj o =>
      match o !! "constructor" with
      | None => Return (VStr "Object")
      | Some c => get_prop c "name"
      end
  end.

(** ** Enumerations *)

(** Modelled from the spec: [MutationMode] of ./util, which model.ts
    imports (spec, data model: enum {Create, Update, Delete}). *)
Inductive MutationMode : Type := Create | Update | Delete.

#[global] Instance MutationMode_eq_dec : EqDecision MutationMode.
Proof. solve_decision. Defined.

(** Modelled from the spec: [FieldType] of ./field, which model.ts imports
    (spec, data model: a tag over the five field categories). *)
Inductive FieldType : Type :=
| SimpleField | RemoteField | RelationalField | UnionField | EnumerableField.

(** Modelled from the spec: [RelationType] of ./util, which model.ts
    imports (spec, data model: enum of the four cardinalities). *)
Inductive RelationType : Type := OneToOne | OneToMany | ManyToOne | ManyToMany.

#[global] Instance RelationType_eq_dec : EqDecision RelationType.
Proof. solve_decision. Defined.

(** A member of a TypeScript enum is a number or a string at run time. *)
Inductive enum_member : Type :=
| EnumNum (n : Z)
| EnumStr (s : string).

Definition enum_value (e : enum_member) : value :=
  match e with
  | EnumNum n => VNum n
  | EnumStr s => VStr s
  end.

#[global] Instance enum_member_eq_dec : EqDecision enum_member.
Proof. solve_decision. Defined.

(** The run-time values of the enum members model.ts compares argument
    values with.  Their declarations (./generated/schema, ./renderer,
    ./util) are not part of model.ts, so they are parameters here. *)
Class Schema : Type := {
  GraphQLSimpleFieldType_Int : enum_member;
  GraphQLSimpleFieldType_Float : enum_member;
  GraphQLSimpleFieldType_String : enum_member;
  GraphQLRemoteFieldType_Remote : enum_member;
  Renderer_SingleLine : enum_member;
  RelationType_member : RelationType -> enum_member;
}.

(** ** Change items and the listener *)

(** Modelled from the spec: the [Field] change item of ./field, which
    model.ts constructs with [new Field(args, mode, type?)]: a record
    pairing a mutation intent with its argument payload (spec, Change
    Item).  [field_type] is [None] where model.ts passes no third
    argument. *)
Record Field : Type := new_Field {
  field_args : obj;
  field_mode : MutationMode;
  field_type : option FieldType;
}.

(** [ChangeListener] of ./migration: the interface through which the
    builder hands over its change items.  [L] is the state of the
    listener. *)
Class ChangeListener (L : Type) : Type := {
  registerChange : Field -> L -> L;
}.

(** Modelled from the spec: the accumulator behind [ChangeListener], which
    is not part of model.ts: one ordered list, to which
    [registerChange(item)] appends unconditionally (spec, Change Listener /
    Accumulator). *)
#[global] Instance accumulator : ChangeListener (list Field) := {
  registerChange item changes := (changes ++ [item])%list;
}.

(** ** Calls on the builder

    A call runs on the state of the listener and ends in an outcome; what
    the listener holds when the call throws is what it held at the throw. *)
Definition M (L A : Type) : Type := L -> outcome A * L.

Section Monad.
Context {L : Type}.

Definition ret {A} (a : A) : M L A := fun st => (Return a, st).

Definition bind {A B} (m : M L A) (f : A -> M L B) : M L B :=
  fun st =>
    match m st with
    | (Return a, st') => f a st'
    | (Throw e, st') => (Throw e, st')
    | (Unmodelled, st') => (Unmodelled, st')
    end.

(** A computation that does not touch the listener. *)
Definition lift {A} (o : outcome A) : M L A := fun st => (o, st).

(** [this.listener.registerChange(field)] *)
Definition register `{!ChangeListener L} (field : Field) : M L unit :=
  fun st => (Return tt, registerChange field st).
End Monad.

Declare Scope builder_scope.
Delimit Scope builder_scope with builder.
Notation "x <- m ;; k" := (bind m (fun x => k))
  (at level 100, m at next level, right associativity) : builder_scope.
Notation "m ;; k" := (bind m (fun _ => k))
  (at level 100, right associativity) : builder_scope.

Local Open Scope builder_scope.

(** ** extractFieldValidations *)

Section Builder.
Context `{Schema}.

(** The [switch] on [fieldArgs.type] compares with [===], case by case in
    the order written. *)
Definition extractFieldValidations (fieldArgs : obj) : outcome value :=
  let type := get "type" fieldArgs in
  let validations := get "validations" fieldArgs in
  if strict_eq type (enum_value GraphQLSimpleFieldType_Int) then
    let validations_Int : obj := {[ "range" := opt_get validations "range" ]} in
    let validations_Int :=
      if truthy (get "isList" fieldArgs)
      then <["listItemCount" := opt_get validations "listItemCount"]> validations_Int
      else validations_Int in
    Return (VObj {[ "Int" := VObj validations_Int ]})
  else if strict_eq type (enum_value GraphQLSimpleFieldType_Float) then
    let validations_Float : obj := {[ "range" := opt_get validations "range" ]} in
    let validations_Float :=
      if truthy (get "isList" fieldArgs)
      then <["listItemCount" := opt_get validations "listItemCount"]> validations_Float
      else validations_Float in
    Return (VObj {[ "Float" := VObj validations_Float ]})
  else if strict_eq type (enum_value GraphQLSimpleFieldType_String) then
    let validations_String : obj :=
      {[ "characters" := opt_get validations "characters";
         "matches" := opt_get validations "matches";
         "notMatches" := opt_get validations "notMatches" ]} in
    let validations_String :=
      if truthy (get "isList" fieldArgs)
      then <["listItemCount" := opt_get validations "listItemCount"]> validations_String
      else validations_String in
    Return (VObj {[ "String" := VObj validations_String ]})
  else
    Throw (Error ("field validations not supported for " +:+ to_string type)).

(** ** ModelClass *)

(** The private members [mode] and [args] of the class; the third,
    [listener], is the state the calls run on. *)
Record ModelClass : Type := new_ModelClass {
  mode : MutationMode;
  args : obj;
}.

(** The loop of addRemoteField over [Object.entries(headers)], which
    stores into the object it runs over:
    [headers[k] = Array.isArray(v) ? v : [v]]. *)
Definition wrap_headers (headers : obj) : obj :=
  map_fold (fun k v headers => <[k := if isArray v then v else VArr [v]]> headers)
    headers headers.

Context {L : Type} `{!ChangeListener L}.

(** [if (fieldArgs.validations) fieldArgs.validations = extractFieldValidations(fieldArgs)] *)
Definition extract_validations (fieldArgs : obj) : M L obj :=
  if truthy (get "validations" fieldArgs) then
    validations <- lift (extractFieldValidations fieldArgs);;
    ret (<["validations" := validations]> fieldArgs)
  else ret fieldArgs.

Definition addSimpleField (this : ModelClass) (fieldArgs : obj) : M L ModelClass :=
  let fieldArgs := <["modelApiId" := get "apiId" (args this)]> fieldArgs in
  let fieldArgs :=
    if strict_eq (get "type" fieldArgs) (enum_value GraphQLSimpleFieldType_String)
    then <["formRenderer" :=
             or_else (get "formRenderer" fieldArgs) (enum_value Renderer_SingleLine)]>
           fieldArgs
    else fieldArgs in
  fieldArgs <- extract_validations fieldArgs;;
  let field := new_Field fieldArgs Create None in
  register field;;
  ret this.

Definition addRemoteField (this : ModelClass) (fieldArgs : obj) : M L ModelClass :=
  let fieldArgs := <["modelApiId" := get "apiId" (args this)]> fieldArgs in
  let fieldArgs := <["type" := enum_value GraphQLRemoteFieldType_Remote]> fieldArgs in
  headers <- lift (get_prop (get "remoteConfig" fieldArgs) "headers");;
  fieldArgs <-
    (if truthy headers then
       name <- lift (constructor_name headers);;
       if negb (strict_eq name (VStr "Object")) then
         lift (Throw (Error "Headers in remote config has to be an object"))
       else
         match headers with
         | VObj headers =>
             (* wrap non-array values into arrays *)
             lift (set_in "remoteConfig" "headers" (VObj (wrap_headers headers)) fieldArgs)
         | _ => lift Unmodelled   (* not reached: only an object passes the test *)
         end
     else lift (set_in "remoteConfig" "headers" (VObj ∅) fieldArgs));;
  payloadFieldApiIds <- lift (get_prop (get "remoteConfig" fieldArgs) "payloadFieldApiIds");;
  fieldArgs <- lift (set_in "remoteConfig" "payloadFieldApiIds"
                       (or_else payloadFieldApiIds (VArr [])) fieldArgs);;
  method <- lift (get_prop (get "remoteConfig" fieldArgs) "method");;
  fieldArgs <- lift (set_in "remoteConfig" "method"
                       (or_else method (VStr "GET")) fieldArgs);;
  let field := new_Field fieldArgs Create (Some RemoteField) in
  register field;;
  ret this.

Definition updateSimpleField (this : ModelClass) (fieldArgs : obj) : M L ModelClass :=
  let fieldArgs := <["modelApiId" := get "apiId" (args this)]> fieldArgs in
  fieldArgs <- extract_validations fieldArgs;;
  (* const { type, ...fieldChanges } = fieldArgs *)
  let fieldChanges := delete "type" fieldArgs in
  let field := new_Field fieldChanges Update None in
  register field;;
  ret this.

(** [fieldArgs.relationType === RelationType.X] *)
Definition relationType_is (fieldArgs : obj) (r : RelationType) : bool :=
  strict_eq (get "relationType" fieldArgs) (enum_value (RelationType_member r)).

(** The reverse field both addRelationalField and addUnionField make up
    when the caller gave none. *)
Definition default_reverseField (fieldArgs : obj) : value :=
  VObj {[ "apiId" := VStr ("related" +:+ to_string (get "modelApiId" fieldArgs));
          "displayName" := VStr ("Related " +:+ to_string (get "modelApiId" fieldArgs)) ]}.

(** The test by which addRelationalField takes a relation for one to an
    asset. *)
Definition is_asset (fieldArgs : obj) : bool :=
  (truthy (get "type" fieldArgs) && strict_eq (get "type" fieldArgs) (VStr "ASSET"))
  || (truthy (get "model" fieldArgs) && strict_eq (get "model" fieldArgs) (VStr "Asset")).

Definition addRelationalField (this : ModelClass) (fieldArgs : obj) : M L ModelClass :=
  let fieldArgs := <["modelApiId" := get "apiId" (args this)]> fieldArgs in
  let fieldArgs :=
    if is_asset fieldArgs
    then <["type" := VStr "ASSET"]> fieldArgs
    else <["type" := VStr "RELATION"]> fieldArgs in
  let fieldArgs :=
    if negb (truthy (get "reverseField" fieldArgs))
    then <["reverseField" := default_reverseField fieldArgs]> fieldArgs
    else fieldArgs in
  fieldArgs <- lift (set_in "reverseField" "modelApiId" (get "model" fieldArgs) fieldArgs);;
  let fieldArgs :=
    <["isList" := VBool (relationType_is fieldArgs OneToMany
                         || relationType_is fieldArgs ManyToMany)]> fieldArgs in
  fieldArgs <- lift (set_in "reverseField" "isList"
                       (VBool (relationType_is fieldArgs ManyToOne
                               || relationType_is fieldArgs ManyToMany)) fieldArgs);;
  fieldArgs <-
    (if strict_eq (get "type" fieldArgs) (VStr "ASSET") then
       (* assets needs the isRequired field *)
       let fieldArgs :=
         if strict_eq (get "isRequired" fieldArgs) VUndefined
         then <["isRequired" := VBool false]> fieldArgs
         else fieldArgs in
       (* asset needs reverse field to be list *)
       fieldArgs <- lift (set_in "reverseField" "isList" (VBool true) fieldArgs);;
       (* asset needs reverse field to be hidden *)
       lift (set_in "reverseField" "isHidden" (VBool true) fieldArgs)
     else
       (* we have to drop them on relation fields *)
       ret (delete "isRequired" fieldArgs));;
  (* remove convenience fields *)
  let fieldArgs := delete "model" fieldArgs in
  let fieldArgs := delete "relationType" fieldArgs in
  let field := new_Field fieldArgs Create (Some RelationalField) in
  register field;;
  ret this.

Definition addUnionField (this : ModelClass) (fieldArgs : obj) : M L ModelClass :=
  let fieldArgs := <["modelApiId" := get "apiId" (args this)]> fieldArgs in
  empty <-
    (if negb (truthy (get "models" fieldArgs)) then ret true
     else
       len <- lift (length_of (get "models" fieldArgs));;
       ret (strict_eq len (VNum 0)));;
  if empty : bool then lift (Throw (Error "models cannot be empty")) else
  let fieldArgs :=
    if negb (truthy (get "reverseField" fieldArgs))
    then <["reverseField" := default_reverseField fieldArgs]> fieldArgs
    else fieldArgs in
  fieldArgs <- lift (set_in "reverseField" "modelApiIds" (get "models" fieldArgs) fieldArgs);;
  let fieldArgs :=
    <["isList" := VBool (relationType_is fieldArgs OneToMany
                         || relationType_is fieldArgs ManyToMany)]> fieldArgs in
  fieldArgs <- lift (set_in "reverseField" "isList"
                       (VBool (relationType_is fieldArgs ManyToOne
                               || relationType_is fieldArgs ManyToMany)) fieldArgs);;
  (* remove convenience fields *)
  let fieldArgs := delete "models" fieldArgs in
  let fieldArgs := delete "relationType" fieldArgs in
  let field := new_Field fieldArgs Create (Some UnionField) in
  register field;;
  ret this.

Definition updateRelationalField (this : ModelClass) (fieldArgs : obj) : M L ModelClass :=
  let fieldArgs := <["modelApiId" := get "apiId" (args this)]> fieldArgs in
  let field := new_Field fieldArgs Update (Some RelationalField) in
  register field;;
  ret this.

Definition updateUnionField (this : ModelClass) (fieldArgs : obj) : M L ModelClass :=
  let fieldArgs := <["modelApiId" := get "apiId" (args this)]> fieldArgs in
  let fieldArgs :=
    <["reverseField" := VObj {[ "modelApiIds" := get "models" fieldArgs ]}]> fieldArgs in
  (* remove convenience field *)
  let fieldArgs := delete "models" fieldArgs in
  let field := new_Field fieldArgs Update (Some UnionField) in
  register field;;
  ret this.

Definition addEnumerableField (this : ModelClass) (fieldArgs : obj) : M L ModelClass :=
  if negb (truthy (get "enumerationApiId" fieldArgs)) then
    lift (Throw (Error "enumerationApiId is required for enumerable field"))
  else
  let fieldArgs := <["modelApiId" := get "apiId" (args this)]> fieldArgs in
  let field := new_Field fieldArgs Create (Some EnumerableField) in
  register field;;
  ret this.

Definition updateEnumerableField (this : ModelClass) (fieldArgs : obj) : M L ModelClass :=
  let fieldArgs := <["modelApiId" := get "apiId" (args this)]> fieldArgs in
  let field := new_Field fieldArgs Update (Some EnumerableField) in
  register field;;
  ret this.

Definition deleteField (this : ModelClass) (apiId : string) : M L ModelClass :=
  let field :=
    new_Field {[ "apiId" := VStr apiId; "modelApiId" := get "apiId" (args this) ]}
      Delete None in
  register field;;
  ret this.

(** [Object.keys(this.args).length] is the number of properties of the
    payload. *)
Definition hasChanges (this : ModelClass) : bool :=
  (* all modes are guaranteed to have changes except Update. *)
  if negb (bool_decide (mode this = Update)) then true
  (* apiId is always a requirement, length of 1 means its apiId only. *)
  else if bool_decide (1 < size (args this)) then true
  else false.

Definition generateChange (this : ModelClass) : obj :=
  let action :=
    match mode this with
    | Create => "createModel"
    | Update => "updateModel"
    | Delete => "deleteModel"
    end in
  {[ action := VObj (args this) ]}.

(** The calls a caller can make on the builder ([Model] interface). *)
Inductive call : Type :=
| AddSimpleField (fieldArgs : obj)
| AddRemoteField (fieldArgs : obj)
| UpdateSimpleField (fieldArgs : obj)
| AddRelationalField (fieldArgs : obj)
| UpdateRelationalField (fieldArgs : obj)
| AddUnionField (fieldArgs : obj)
| UpdateUnionField (fieldArgs : obj)
| AddEnumerableField (fieldArgs : obj)
| UpdateEnumerableField (fieldArgs : obj)
| DeleteField (apiId : string).

Definition perform (this : ModelClass) (c : call) : M L ModelClass :=
  match c with
  | AddSimpleField fieldArgs => addSimpleField this fieldArgs
  | AddRemoteField fieldArgs => addRemoteField this fieldArgs
  | UpdateSimpleField fieldArgs => updateSimpleField this fieldArgs
  | AddRelationalField fieldArgs => addRelationalField this fieldArgs
  | UpdateRelationalField fieldArgs => updateRelationalField this fieldArgs
  | AddUnionField fieldArgs => addUnionField this fieldArgs
  | UpdateUnionField fieldArgs => updateUnionField this fieldArgs
  | AddEnumerableField fieldArgs => addEnumerableField this fieldArgs
  | UpdateEnumerableField fieldArgs => updateEnumerableField this fieldArgs
  | DeleteField apiId => deleteField this apiId
  end.
End Builder.

(** The run-time values the examples below use for the enum members: the
    ones the scenarios of the specification write ([type:"STRING"],
    [relationType:"ManyToOne"]), and strings of the same kind for the
    others. *)
Definition sample_schema : Schema := {|
  GraphQLSimpleFieldType_Int := EnumStr "INT";
  GraphQLSimpleFieldType_Float := EnumStr "FLOAT";
  GraphQLSimpleFieldType_String := EnumStr "STRING";
  GraphQLRemoteFieldType_Remote := EnumStr "REMOTE";
  Renderer_SingleLine := EnumStr "GCMS_SINGLE_LINE";
  RelationType_member r :=
    match r with
    | OneToOne => EnumStr "OneToOne"
    | OneToMany => EnumStr "OneToMany"
    | ManyToOne => EnumStr "ManyToOne"
    | ManyToMany => EnumStr "ManyToMany"
    end;
|}.

(** ** The tables of the specification *)

(** List-ness of the forward side, as the specification tabulates it. *)
Definition forward_isList (r : RelationType) : bool :=
  match r with
  | OneToOne => false
  | OneToMany => true
  | ManyToOne => false
  | ManyToMany => true
  end.

(** List-ness of the reverse side, as the specification tabulates it. *)
Definition reverse_isList (r : RelationType) : bool :=
  match r with
  | OneToOne => false
  | OneToMany => false
  | ManyToOne => true
  | ManyToMany => true
  end.

(** The caller gave no reverse field, or gave an object for it. *)
Definition reverseField_ok (fieldArgs : obj) : Prop :=
  truthy (get "reverseField" fieldArgs) = false
  ∨ ∃ o : obj, get "reverseField" fieldArgs = VObj o.

(** The caller gave a non-empty list of target models. *)
Definition models_given (fieldArgs : obj) : Prop :=
  ∃ (m : value) (l : list value), get "models" fieldArgs = VArr (m :: l).

(** The arguments of Scenario B of the specification. *)
Definition scenario_B `{Schema} : obj :=
  {[ "apiId" := VStr "author";
     "model" := VStr "User";
     "relationType" := enum_value (RelationType_member ManyToOne) ]}.

(** The builder of a model called Post, and arguments for the examples. *)
Definition post_model : ModelClass :=
  new_ModelClass Create {[ "apiId" := VStr "Post" ]}.

(** [{apiId: "cover", model: "Asset", relationType: OneToOne}] *)
Definition cover_args `{Schema} : obj :=
  {[ "apiId" := VStr "cover";
     "model" := VStr "Asset";
     "relationType" := enum_value (RelationType_member OneToOne) ]}.

(** [{apiId: "content", models: ["Page", "Post"], relationType: ManyToMany}] *)
Definition content_args `{Schema} : obj :=
  {[ "apiId" := VStr "content";
     "models" := VArr [VStr "Page"; VStr "Post"];
     "relationType" := enum_value (RelationType_member ManyToMany) ]}.

(** The arguments of Scenario A of the specification. *)
Definition scenario_A `{Schema} : obj :=
  {[ "apiId" := VStr "title";
     "type" := enum_value GraphQLSimpleFieldType_String ]}.

(** The arguments of Scenario C of the specification. *)
Definition scenario_C : obj :=
  {[ "apiId" := VStr "content"; "models" := VArr [] ]}.

(** The arguments of Scenario D of the specification. *)
Definition scenario_D : obj :=
  {[ "apiId" := VStr "weather";
     "remoteConfig" := VObj {[ "headers" := VObj {[ "X-Key" := VStr "abc" ]} ]} ]}.

(** [{apiId: "rating", type: Int, isList: true,
      validations: {range: {min: 1, max: 5}}}] *)
Definition rating_args `{Schema} : obj :=
  {[ "apiId" := VStr "rating";
     "type" := enum_value GraphQLSimpleFieldType_Int;
     "isList" := VBool true;
     "validations" :=
       VObj {[ "range" := VObj {[ "min" := VNum 1; "max" := VNum 5 ]} ]} ]}.

(** [{apiId: "title", type: String, displayName: "Title"}] *)
Definition title_args `{Schema} : obj :=
  {[ "apiId" := VStr "title";
     "type" := enum_value GraphQLSimpleFieldType_String;
     "displayName" := VStr "Title" ]}.

(** [{apiId: "title", validations: {characters: {max: 80}}}]: validations,
    and no type. *)
Definition untyped_args : obj :=
  {[ "apiId" := VStr "title";
     "validations" := VObj {[ "characters" := VObj {[ "max" := VNum 80 ]} ]} ]}.

(** A computation that does not call the listener. *)
Definition silent {L A : Type} (m : M L A) : Prop :=
  ∀ st : L, (m st).2 = st.

(** A computation that has called [registerChange] once, and only once,
    when it returns, and not at all when it does not. *)
Definition registers_once {L A : Type} `{!ChangeListener L} (m : M L A) : Prop :=
  ∀ st : L,
    match m st with
    | (Return _, st') => ∃ item : Field, st' = registerChange item st
    | (_, st') => st' = st
    end.

(** ** Calls one after another *)

(** The second and third arguments of [new Field(...)] in the method a call
    runs. *)
Definition call_mode (c : call) : MutationMode :=
  match c with
  | AddSimpleField _ | AddRemoteField _ | AddRelationalField _
  | AddUnionField _ | AddEnumerableField _ => Create
  | UpdateSimpleField _ | UpdateRelationalField _
  | UpdateUnionField _ | UpdateEnumerableField _ => Update
  | DeleteField _ => Delete
  end.

Definition call_type (c : call) : option FieldType :=
  match c with
  | AddSimpleField _ | UpdateSimpleField _ | DeleteField _ => None
  | AddRemoteField _ => Some RemoteField
  | AddRelationalField _ | UpdateRelationalField _ => Some RelationalField
  | AddUnionField _ | UpdateUnionField _ => Some UnionField
  | AddEnumerableField _ | UpdateEnumerableField _ => Some EnumerableField
  end.

(** A chain of calls, [model.addSimpleField(a).addRemoteField(b)...]: every
    method returns the builder the next one is called on. *)
Fixpoint chain `{Schema} {L : Type} `{!ChangeListener L}
    (this : ModelClass) (cs : list call) : M L ModelClass :=
  match cs with
  | [] => ret this
  | c :: cs => this' <- perform this c;; chain this' cs
  end.

(** A computation that does not call the listener and returns, when it
    does, a result that satisfies [Q]. *)
Definition silent_with {L A : Type} (Q : A → Prop) (m : M L A) : Prop :=
  ∀ st : L,
    match m st with
    | (Return a, st') => st' = st ∧ Q a
    | (_, st') => st' = st
    end.

(** A computation that hands the listener exactly one item when it
    returns, with [P] of the item and the result, and none when it does
    not. *)
Definition registers_item {L A : Type} `{!ChangeListener L}
    (P : Field → A → Prop) (m : M L A) : Prop :=
  ∀ st : L,
    match m st with
    | (Return a, st') => ∃ item : Field, st' = registerChange item st ∧ P item a
    | (_, st') => st' = st
    end.

(** * Properties *)

Arguments strict_eq !a !b /.
Arguments truthy !v /.
Arguments isArray !v /.
Arguments set_prop !v k x /.
Arguments get_prop !v k /.
Arguments length_of !v /.
Arguments constructor_name !v /.
Arguments enum_value !e /.

(** ** Reading properties of updated objects *)

Lemma get_insert_eq k v (o : obj) : get k (<[k := v]> o) = v.
Proof. unfold get. by rewrite lookup_insert_eq. Qed.

Lemma get_insert_ne k k' v (o : obj) : k ≠ k' → get k' (<[k := v]> o) = get k' o.
Proof. intros. unfold get. by rewrite lookup_insert_ne. Qed.

Lemma get_delete_ne k k' (o : obj) : k ≠ k' → get k' (delete k o) = get k' o.
Proof. intros. unfold get. by rewrite lookup_delete_ne. Qed.

Lemma get_None k (o : obj) : o !! k = None → get k o = VUndefined.
Proof. unfold get. by intros ->. Qed.

Lemma get_Some k v (o : obj) : o !! k = Some v → get k o = v.
Proof. unfold get. by intros ->. Qed.

Lemma is_asset_insert_ne k v (o : obj) :
  k ≠ "type" → k ≠ "model" → is_asset (<[k := v]> o) = is_asset o.
Proof. intros. unfold is_asset. by rewrite !get_insert_ne. Qed.

Lemma set_in_obj k1 k2 x (o r : obj) :
  get k1 o = VObj r → set_in k1 k2 x o = Return (<[k1 := VObj (<[k2 := x]> r)]> o).
Proof. intros Hr. unfold set_in. by rewrite Hr. Qed.

Lemma strict_eq_refl_str s : strict_eq (VStr s) (VStr s) = true.
Proof. simpl. apply String.eqb_refl. Qed.

Lemma strict_eq_str v s : strict_eq v (VStr s) = true ↔ v = VStr s.
Proof.
  split; [|intros ->; apply strict_eq_refl_str].
  destruct v; simpl; try discriminate.
  by intros ->%String.eqb_eq.
Qed.

Lemma strict_eq_enum (a b : enum_member) :
  strict_eq (enum_value a) (enum_value b) = bool_decide (a = b).
Proof.
  case_bool_decide as Hab.
  { subst b. destruct a; simpl; [apply Z.eqb_refl | apply String.eqb_refl]. }
  destruct a as [x|x], b as [y|y]; simpl; try done.
  - apply Z.eqb_neq. congruence.
  - apply String.eqb_neq. congruence.
Qed.

Lemma strict_eq_undefined_enum (e : enum_member) :
  strict_eq VUndefined (enum_value e) = false.
Proof. by destruct e. Qed.

(** The ASSET test holds exactly when the caller passes the type ["ASSET"]
    or the model ["Asset"]. *)
Lemma is_asset_true (fieldArgs : obj) :
  is_asset fieldArgs = true ↔
  get "type" fieldArgs = VStr "ASSET" ∨ get "model" fieldArgs = VStr "Asset".
Proof.
  unfold is_asset. rewrite orb_true_iff, !andb_true_iff, !strict_eq_str.
  split.
  - intros [[_ ?]|[_ ?]]; auto.
  - intros [->| ->]; [left|right]; done.
Qed.

Ltac get_norm :=
  repeat first
    [ rewrite get_insert_eq
    | rewrite get_insert_ne by done
    | rewrite get_delete_ne by done
    | rewrite is_asset_insert_ne by done ].

Ltac run :=
  repeat (get_norm;
          try (erewrite set_in_obj by (get_norm; first [eassumption | reflexivity]));
          cbn [bind lift set_prop get_prop length_of mbind outcome_bind mret outcome_ret
               register ret negb truthy strict_eq isArray
               String.eqb Ascii.eqb Bool.eqb andb orb]).

Tactic Notation "run" "with" constr(H) := repeat (progress (run; rewrite ?H)); run.

Ltac lookup_norm :=
  repeat first
    [ rewrite lookup_insert_eq
    | rewrite lookup_delete_eq
    | rewrite lookup_insert_ne by done
    | rewrite lookup_delete_ne by done ].

(** Exhibits the payload and the reverse field a call has been run to,
    then reads the properties asked of them. *)
Ltac payload_exists :=
  eexists _, _; split; [reflexivity|];
  split; [lookup_norm; reflexivity|];
  lookup_norm; repeat split; try done.

(** ** Relational and union fields *)

Section Relations.
Context `{Schema} {L : Type} `{!ChangeListener L}.

Lemma relationType_is_member (fieldArgs : obj) (r r' : RelationType) :
  Inj (=) (=) RelationType_member →
  get "relationType" fieldArgs = enum_value (RelationType_member r) →
  relationType_is fieldArgs r' = bool_decide (r = r').
Proof.
  intros Hinj Hr. unfold relationType_is. rewrite Hr, strict_eq_enum.
  apply bool_decide_ext. split; [by intros ?%Hinj | by intros ->].
Qed.

(** What addRelationalField registers when the reverse field is absent or
    an object: the properties of the payload it derives. *)
Lemma addRelationalField_registers this (fieldArgs : obj) (st : L) :
  reverseField_ok fieldArgs →
  ∃ (payload rev : obj),
    addRelationalField this fieldArgs st
    = (Return this,
       registerChange (new_Field payload Create (Some RelationalField)) st)
    ∧ payload !! "reverseField" = Some (VObj rev)
    ∧ payload !! "isList"
      = Some (VBool (relationType_is fieldArgs OneToMany
                     || relationType_is fieldArgs ManyToMany))
    ∧ rev !! "isList"
      = Some (VBool (is_asset fieldArgs
                     || (relationType_is fieldArgs ManyToOne
                         || relationType_is fieldArgs ManyToMany)))
    ∧ (is_asset fieldArgs = true → rev !! "isHidden" = Some (VBool true))
    ∧ payload !! "isRequired"
      = (if is_asset fieldArgs
         then if strict_eq (get "isRequired" fieldArgs) VUndefined
              then Some (VBool false)
              else fieldArgs !! "isRequired"
         else None)
    ∧ (truthy (get "reverseField" fieldArgs) = false →
       rev !! "apiId"
       = Some (VStr ("related" +:+ to_string (get "apiId" (args this))))
       ∧ rev !! "displayName"
         = Some (VStr ("Related " +:+ to_string (get "apiId" (args this))))).
Proof.
  intros Hok. unfold addRelationalField, default_reverseField, relationType_is.
  cbv zeta.
  destruct (is_asset fieldArgs) eqn:Ha; get_norm; rewrite Ha;
    (destruct Hok as [Hrev|[o Hrev]]; run with Hrev).
  - destruct (strict_eq (get "isRequired" fieldArgs) VUndefined) eqn:Hreq;
      run; payload_exists.
  - destruct (strict_eq (get "isRequired" fieldArgs) VUndefined) eqn:Hreq;
      run; payload_exists.
  - payload_exists.
  - payload_exists.
Qed.

(** The same for addUnionField, which in addition wants a non-empty list
    of models. *)
Lemma addUnionField_registers this (fieldArgs : obj) (st : L) :
  models_given fieldArgs →
  reverseField_ok fieldArgs →
  ∃ (payload rev : obj),
    addUnionField this fieldArgs st
    = (Return this,
       registerChange (new_Field payload Create (Some UnionField)) st)
    ∧ payload !! "reverseField" = Some (VObj rev)
    ∧ payload !! "isList"
      = Some (VBool (relationType_is fieldArgs OneToMany
                     || relationType_is fieldArgs ManyToMany))
    ∧ rev !! "isList"
      = Some (VBool (relationType_is fieldArgs ManyToOne
                     || relationType_is fieldArgs ManyToMany))
    ∧ rev !! "modelApiIds" = Some (get "models" fieldArgs).
Proof.
  intros (m & l & Hm) Hok.
  unfold addUnionField, default_reverseField, relationType_is. cbv zeta.
  assert (Hlen : (Z.of_nat (length (m :: l)) =? 0)%Z = false).
  { apply Z.eqb_neq. simpl. lia. }
  run with Hm. rewrite Hlen.
  destruct Hok as [Hrev|[o Hrev]]; run with Hrev; rewrite ?Hm; payload_exists.
Qed.

(** ** The claims on relational and union fields *)

(** C1. For every call to addRelationalField or addUnionField whose
    relationType is a member of RelationType, the list-ness of the payload
    that is registered is the function of the relation type the
    specification tabulates: the forward side is a list for OneToMany and
    ManyToMany, the reverse side for ManyToOne and ManyToMany; in
    addRelationalField the reverse side is then forced to a list for an
    ASSET relation. *)
Theorem C1_listness_is_function_of_relationType
    this (fieldArgs : obj) (r : RelationType) (st : L) :
  Inj (=) (=) RelationType_member →
  get "relationType" fieldArgs = enum_value (RelationType_member r) →
  reverseField_ok fieldArgs →
  (∃ (item : Field) (rev : obj),
     addRelationalField this fieldArgs st = (Return this, registerChange item st)
     ∧ field_args item !! "isList" = Some (VBool (forward_isList r))
     ∧ field_args item !! "reverseField" = Some (VObj rev)
     ∧ rev !! "isList" = Some (VBool (is_asset fieldArgs || reverse_isList r)))
  ∧ (models_given fieldArgs →
     ∃ (item : Field) (rev : obj),
       addUnionField this fieldArgs st = (Return this, registerChange item st)
       ∧ field_args item !! "isList" = Some (VBool (forward_isList r))
       ∧ field_args item !! "reverseField" = Some (VObj rev)
       ∧ rev !! "isList" = Some (VBool (reverse_isList r))).
Proof.
  intros Hinj Hr Hok.
  assert (Hfwd : relationType_is fieldArgs OneToMany
                 || relationType_is fieldArgs ManyToMany = forward_isList r).
  { rewrite !(relationType_is_member _ r) by done. by destruct r. }
  assert (Hrev : relationType_is fieldArgs ManyToOne
                 || relationType_is fieldArgs ManyToMany = reverse_isList r).
  { rewrite !(relationType_is_member _ r) by done. by destruct r. }
  split.
  - destruct (addRelationalField_registers this fieldArgs st Hok)
      as (payload & rev & Hrun & Hpr & Hl & Hrl & _).
    exists (new_Field payload Create (Some RelationalField)), rev.
    rewrite <- Hfwd, <- Hrev. done.
  - intros Hm.
    destruct (addUnionField_registers this fieldArgs st Hm Hok)
      as (payload & rev & Hrun & Hpr & Hl & Hrl & _).
    exists (new_Field payload Create (Some UnionField)), rev.
    rewrite <- Hfwd, <- Hrev. done.
Qed.

(** C3. For every call to addRelationalField that resolves to an ASSET
    relation (the caller passes the type "ASSET" or the model "Asset"), the
    reverse field of the registered payload has isList true and isHidden
    true whatever the relationType, and isRequired is false when the caller
    did not supply it; for every other call, the registered payload has no
    isRequired, also when the caller supplied one. *)
Theorem C3_asset_relations this (fieldArgs : obj) (st : L) :
  reverseField_ok fieldArgs →
  (get "type" fieldArgs = VStr "ASSET" ∨ get "model" fieldArgs = VStr "Asset" →
   ∃ (item : Field) (rev : obj),
     addRelationalField this fieldArgs st = (Return this, registerChange item st)
     ∧ field_args item !! "reverseField" = Some (VObj rev)
     ∧ rev !! "isList" = Some (VBool true)
     ∧ rev !! "isHidden" = Some (VBool true)
     ∧ (fieldArgs !! "isRequired" = None →
        field_args item !! "isRequired" = Some (VBool false)))
  ∧ (¬ (get "type" fieldArgs = VStr "ASSET" ∨ get "model" fieldArgs = VStr "Asset") →
     ∃ item : Field,
       addRelationalField this fieldArgs st = (Return this, registerChange item st)
       ∧ field_args item !! "isRequired" = None).
Proof.
  intros Hok.
  destruct (addRelationalField_registers this fieldArgs st Hok)
    as (payload & rev & Hrun & Hpr & _ & Hrl & Hh & Hreq & _).
  split.
  - intros Ha%is_asset_true. rewrite Ha in Hrl, Hreq.
    exists (new_Field payload Create (Some RelationalField)), rev.
    repeat split; try done; [by apply Hh|].
    intros Hnone. simpl. by rewrite Hreq, (get_None _ _ Hnone).
  - intros Ha. rewrite <- is_asset_true in Ha. apply not_true_is_false in Ha.
    rewrite Ha in Hreq.
    by exists (new_Field payload Create (Some RelationalField)).
Qed.

(** C4. For every call to addUnionField whose models argument is absent or
    an empty list, the call throws and registers nothing: the listener is
    left as it was before the call. *)
Theorem C4_union_without_models_registers_nothing
    this (fieldArgs : obj) (st : L) :
  fieldArgs !! "models" = None ∨ fieldArgs !! "models" = Some (VArr []) →
  addUnionField this fieldArgs st = (Throw (Error "models cannot be empty"), st).
Proof.
  intros Hm. unfold addUnionField. cbv zeta.
  destruct Hm as [Hm|Hm].
  - apply get_None in Hm. by run with Hm.
  - apply get_Some in Hm. by run with Hm.
Qed.

(** C2, as the code has it.  When no reverse field is supplied,
    addRelationalField registers a Create item whose reverse field is named
    after the model the builder belongs to: its apiId is "related" followed
    by the apiId of that model, its displayName "Related " followed by it.
    For the arguments of Scenario B the forward side is no list and the
    reverse side is one. *)
Theorem C2_reverse_field_named_after_owning_model
    this (fieldArgs : obj) (st : L) :
  Inj (=) (=) RelationType_member →
  (fieldArgs !! "reverseField" = None →
   ∃ (item : Field) (rev : obj),
     addRelationalField this fieldArgs st = (Return this, registerChange item st)
     ∧ field_mode item = Create
     ∧ field_args item !! "reverseField" = Some (VObj rev)
     ∧ rev !! "apiId"
       = Some (VStr ("related" +:+ to_string (get "apiId" (args this))))
     ∧ rev !! "displayName"
       = Some (VStr ("Related " +:+ to_string (get "apiId" (args this)))))
  ∧ (∃ (item : Field) (rev : obj),
       addRelationalField this scenario_B st = (Return this, registerChange item st)
       ∧ field_mode item = Create
       ∧ field_args item !! "reverseField" = Some (VObj rev)
       ∧ rev !! "apiId"
         = Some (VStr ("related" +:+ to_string (get "apiId" (args this))))
       ∧ rev !! "displayName"
         = Some (VStr ("Related " +:+ to_string (get "apiId" (args this))))
       ∧ field_args item !! "isList" = Some (VBool false)
       ∧ rev !! "isList" = Some (VBool true)).
Proof.
  intros Hinj. split.
  - intros Hnone%get_None.
    assert (Hfalsy : truthy (get "reverseField" fieldArgs) = false) by by rewrite Hnone.
    destruct (addRelationalField_registers this fieldArgs st (or_introl Hfalsy))
      as (payload & rev & Hrun & Hpr & _ & _ & _ & _ & Hnames).
    destruct (Hnames Hfalsy) as [Hid Hname].
    by exists (new_Field payload Create (Some RelationalField)), rev.
  - assert (Hnone : get "reverseField" scenario_B = VUndefined) by done.
    assert (Hfalsy : truthy (get "reverseField" scenario_B) = false) by by rewrite Hnone.
    destruct (addRelationalField_registers this scenario_B st (or_introl Hfalsy))
      as (payload & rev & Hrun & Hpr & Hl & Hrl & _ & _ & Hnames).
    destruct (Hnames Hfalsy) as [Hid Hname].
    assert (Hr : get "relationType" scenario_B
                 = enum_value (RelationType_member ManyToOne)) by done.
    rewrite !(relationType_is_member _ ManyToOne) in Hl, Hrl by done.
    by exists (new_Field payload Create (Some RelationalField)), rev.
Qed.
End Relations.

(** ** Simple fields *)

Section Simple.
Context `{Schema} {L : Type} `{!ChangeListener L}.

Lemma extractFieldValidations_no_type (fieldArgs : obj) :
  fieldArgs !! "type" = None →
  extractFieldValidations fieldArgs
  = Throw (Error "field validations not supported for undefined").
Proof.
  intros Ht%get_None. unfold extractFieldValidations. cbv zeta.
  by rewrite Ht, !strict_eq_undefined_enum.
Qed.

(** The validation step either leaves the listener alone and hands on the
    arguments, with or without new validations, or throws. *)
Lemma extract_validations_cases (fieldArgs : obj) (st : L) :
  (∃ fieldArgs' : obj,
     extract_validations fieldArgs st = (Return fieldArgs', st)
     ∧ (fieldArgs' = fieldArgs
        ∨ ∃ v, fieldArgs' = <["validations" := v]> fieldArgs))
  ∨ (∃ e, extract_validations fieldArgs st = (Throw e, st)).
Proof.
  unfold extract_validations, extractFieldValidations. cbv zeta.
  destruct (truthy (get "validations" fieldArgs)); [|left; eauto].
  repeat match goal with
         | |- context [if strict_eq ?a ?b then _ else _] => destruct (strict_eq a b)
         end; run; eauto 6.
Qed.

(** The extractor returns on the three types it knows. *)
Lemma extractFieldValidations_supported (fieldArgs : obj) (e : enum_member) :
  e ∈ [GraphQLSimpleFieldType_Int;
       GraphQLSimpleFieldType_Float;
       GraphQLSimpleFieldType_String] →
  get "type" fieldArgs = enum_value e →
  ∃ v, extractFieldValidations fieldArgs = Return v.
Proof.
  intros He Ht. unfold extractFieldValidations. cbv zeta. rewrite Ht.
  repeat match goal with
         | |- context [if strict_eq ?a ?b then _ else _] =>
             destruct (strict_eq a b) eqn:?
         end; eauto.
  rewrite !elem_of_cons, elem_of_nil in He.
  destruct He as [->|[->|[->|[]]]];
    rewrite strict_eq_enum, bool_decide_eq_true_2 in * by done; discriminate.
Qed.

(** C6. Whenever updateSimpleField returns, it has registered one item,
    in Update mode, whose payload has no [type] attribute, whether or not the
    caller supplied one; and it does return when there are no validations to
    extract, or when the type is one the extractor knows. *)
Theorem C6_updateSimpleField_drops_type this (fieldArgs : obj) (st : L) :
  (∀ m st',
     updateSimpleField this fieldArgs st = (Return m, st') →
     ∃ item : Field,
       st' = registerChange item st
       ∧ field_mode item = Update
       ∧ field_args item !! "type" = None)
  ∧ (truthy (get "validations" fieldArgs) = false
     ∨ (∃ e, e ∈ [GraphQLSimpleFieldType_Int;
                  GraphQLSimpleFieldType_Float;
                  GraphQLSimpleFieldType_String]
             ∧ get "type" fieldArgs = enum_value e) →
     ∃ item : Field,
       updateSimpleField this fieldArgs st = (Return this, registerChange item st)
       ∧ field_mode item = Update
       ∧ field_args item !! "type" = None).
Proof.
  split.
  - intros m st'. unfold updateSimpleField. cbv zeta.
    unfold bind at 1.
    destruct (extract_validations_cases
                (<["modelApiId" := get "apiId" (args this)]> fieldArgs) st)
      as [(f' & -> & _)|(e & ->)]; [|done].
    run. intros [= _ <-]. eexists. split; [done|]. split; [done|].
    apply lookup_delete_eq.
  - intros Hret. unfold updateSimpleField, extract_validations. cbv zeta. run.
    destruct (truthy (get "validations" fieldArgs)) eqn:Hv.
    + destruct Hret as [?|(e & He & Ht)]; [done|].
      destruct (extractFieldValidations_supported
                  (<["modelApiId" := get "apiId" (args this)]> fieldArgs) e He)
        as [v ->]; [by get_norm|].
      run. eexists. split; [done|]. split; [done|]. apply lookup_delete_eq.
    + run. eexists. split; [done|]. split; [done|]. apply lookup_delete_eq.
Qed.

(** C10. A call to updateSimpleField whose arguments hold a validations
    object and no [type] throws from the extractor, on the missing type, and
    registers nothing. *)
Theorem C10_update_validations_need_type
    this (fieldArgs validations : obj) (st : L) :
  get "validations" fieldArgs = VObj validations →
  fieldArgs !! "type" = None →
  updateSimpleField this fieldArgs st
  = (Throw (Error "field validations not supported for undefined"), st).
Proof.
  intros Hv Ht. unfold updateSimpleField, extract_validations. cbv zeta.
  run with Hv.
  rewrite extractFieldValidations_no_type; [done|].
  by rewrite lookup_insert_ne.
Qed.
End Simple.

(** ** The change item of a model *)

(** C5. hasChanges is true in Create and Delete mode; in Update mode, on a
    payload that has its apiId, it is true exactly when the payload has a
    key besides apiId, and so false on a payload that is [{apiId: X}]. *)
Theorem C5_hasChanges (this : ModelClass) :
  (mode this ≠ Update → hasChanges this = true)
  ∧ (mode this = Update →
     is_Some (args this !! "apiId") →
     (hasChanges this = true
      ↔ ∃ k : string, k ≠ "apiId" ∧ is_Some (args this !! k)))
  ∧ (mode this = Update →
     ∀ X : value, args this = {[ "apiId" := X ]} → hasChanges this = false).
Proof.
  unfold hasChanges. split; [|split].
  - intros Hm. by rewrite bool_decide_eq_false_2.
  - intros Hm Hid. rewrite bool_decide_eq_true_2 by done. simpl.
    assert (Hsize : size (args this) = S (size (delete "apiId" (args this)))).
    { rewrite map_size_delete_Some by done.
      pose proof (map_size_ne_0_lookup_2 _ _ Hid). lia. }
    transitivity (size (delete "apiId" (args this)) ≠ 0).
    + case_bool_decide; split; intros; try done; lia.
    + rewrite map_size_ne_0_lookup. split.
      * intros [k [Hne Hk]%lookup_delete_is_Some]. exists k. split; [congruence|done].
      * intros (k & Hne & Hk). exists k. apply lookup_delete_is_Some.
        split; [congruence|done].
  - intros Hm X ->. rewrite bool_decide_eq_true_2 by done. simpl.
    by rewrite map_size_singleton.
Qed.

(** ** Every call registers once *)

Section Once.
Context {L : Type} `{!ChangeListener L}.

Lemma silent_ret {A} (a : A) : silent (L := L) (ret a).
Proof. by intros st. Qed.

Lemma silent_lift {A} (o : outcome A) : silent (L := L) (lift o).
Proof. by intros st. Qed.

Lemma silent_bind {A B} (m : M L A) (f : A → M L B) :
  silent m → (∀ a, silent (f a)) → silent (bind m f).
Proof.
  intros Hm Hf st. unfold bind. specialize (Hm st).
  destruct (m st) as [[a|e|] st1]; simpl in *; subst; [apply Hf|done..].
Qed.

Lemma registers_once_bind {A B} (m : M L A) (f : A → M L B) :
  silent m → (∀ a, registers_once (f a)) → registers_once (bind m f).
Proof.
  intros Hm Hf st. unfold bind. specialize (Hm st).
  destruct (m st) as [[a|e|] st1]; simpl in *; subst; [apply Hf|done..].
Qed.

Lemma registers_once_throw {A} (e : error) :
  registers_once (L := L) (A := A) (lift (Throw e)).
Proof. by intros st. Qed.

Lemma registers_once_register {A} (field : Field) (a : A) :
  registers_once (register field;; ret a).
Proof. intros st. simpl. by exists field. Qed.

Lemma silent_extract_validations `{Schema} (fieldArgs : obj) :
  silent (L := L) (extract_validations fieldArgs).
Proof.
  unfold extract_validations. destruct (truthy _); [|apply silent_ret].
  apply silent_bind; [apply silent_lift|intros; apply silent_ret].
Qed.
End Once.

Ltac silent_tac :=
  repeat first
    [ apply silent_ret
    | apply silent_lift
    | apply silent_extract_validations
    | apply silent_bind; [|intros ?]
    | match goal with
      | |- silent (if ?b then _ else _) => destruct b
      | |- silent (match ?v with _ => _ end) => destruct v
      end ].

Ltac once_tac :=
  cbv zeta;
  repeat first
    [ apply registers_once_register
    | apply registers_once_throw
    | apply registers_once_bind; [silent_tac|intros ?]
    | match goal with
      | |- registers_once (if ?b then _ else _) => destruct b
      end ].

Section Calls.
Context `{Schema} {L : Type} `{!ChangeListener L}.

(** Whatever the listener does with an item, a call hands it exactly one
    item when it returns and none when it does not. *)
Lemma perform_registers_once this (c : call) : registers_once (L := L) (perform this c).
Proof.
  destruct c; simpl.
  - unfold addSimpleField. once_tac.
  - unfold addRemoteField. once_tac.
  - unfold updateSimpleField. once_tac.
  - unfold addRelationalField. once_tac.
  - unfold updateRelationalField. once_tac.
  - unfold addUnionField. once_tac.
  - unfold updateUnionField. once_tac.
  - unfold addEnumerableField. once_tac.
  - unfold updateEnumerableField. once_tac.
  - unfold deleteField. once_tac.
Qed.
End Calls.

(** C9. On the accumulator, every call of the builder that returns has
    appended exactly one change item: the list after the call is the list
    before it followed by the new item. *)
Theorem C9_call_appends_one_item `{Schema}
    this (c : call) (changes changes' : list Field) (m : ModelClass) :
  perform this c changes = (Return m, changes') →
  ∃ item : Field, changes' = (changes ++ [item])%list.
Proof.
  intros Hrun. pose proof (perform_registers_once this c changes) as Honce.
  by rewrite Hrun in Honce.
Qed.

(** ** The validation extractor *)

Section Validations.
Context `{Schema}.

Lemma strict_eq_enum_true (v : value) (e : enum_member) :
  strict_eq v (enum_value e) = true → v = enum_value e.
Proof.
  destruct v, e; simpl; try discriminate.
  - by intros ->%Z.eqb_eq.
  - by intros ->%String.eqb_eq.
Qed.

Lemma strict_eq_enum_false (v : value) (e : enum_member) :
  v ≠ enum_value e → strict_eq v (enum_value e) = false.
Proof.
  intros Hne. apply not_true_is_false. by intros ?%strict_eq_enum_true.
Qed.

Lemma strict_eq_enum_ne (a b : enum_member) :
  a ≠ b → strict_eq (enum_value a) (enum_value b) = false.
Proof. intros. by rewrite strict_eq_enum, bool_decide_eq_false_2. Qed.

Lemma strict_eq_enum_refl (a : enum_member) :
  strict_eq (enum_value a) (enum_value a) = true.
Proof. by rewrite strict_eq_enum, bool_decide_eq_true_2. Qed.

(** C8. Given the declared type of a field and a validation request, the
    extractor returns: for Int and for Float, a structure with the range of
    the request, and with its listItemCount exactly when the field is a
    list; for String, a structure with characters, matches and notMatches,
    and with listItemCount exactly when the field is a list; for every other
    type it throws. *)
Theorem C8_extractFieldValidations (fieldArgs : obj) :
  NoDup [GraphQLSimpleFieldType_Int;
         GraphQLSimpleFieldType_Float;
         GraphQLSimpleFieldType_String] →
  (get "type" fieldArgs = enum_value GraphQLSimpleFieldType_Int →
   extractFieldValidations fieldArgs
   = Return (VObj {[ "Int" := VObj
       (if truthy (get "isList" fieldArgs)
        then {[ "range" := opt_get (get "validations" fieldArgs) "range";
                "listItemCount" :=
                  opt_get (get "validations" fieldArgs) "listItemCount" ]}
        else {[ "range" := opt_get (get "validations" fieldArgs) "range" ]}) ]}))
  ∧ (get "type" fieldArgs = enum_value GraphQLSimpleFieldType_Float →
     extractFieldValidations fieldArgs
     = Return (VObj {[ "Float" := VObj
         (if truthy (get "isList" fieldArgs)
          then {[ "range" := opt_get (get "validations" fieldArgs) "range";
                  "listItemCount" :=
                    opt_get (get "validations" fieldArgs) "listItemCount" ]}
          else {[ "range" := opt_get (get "validations" fieldArgs) "range" ]}) ]}))
  ∧ (get "type" fieldArgs = enum_value GraphQLSimpleFieldType_String →
     extractFieldValidations fieldArgs
     = Return (VObj {[ "String" := VObj
         (if truthy (get "isList" fieldArgs)
          then {[ "characters" :=
                    opt_get (get "validations" fieldArgs) "characters";
                  "matches" := opt_get (get "validations" fieldArgs) "matches";
                  "notMatches" :=
                    opt_get (get "validations" fieldArgs) "notMatches";
                  "listItemCount" :=
                    opt_get (get "validations" fieldArgs) "listItemCount" ]}
          else {[ "characters" :=
                    opt_get (get "validations" fieldArgs) "characters";
                  "matches" := opt_get (get "validations" fieldArgs) "matches";
                  "notMatches" :=
                    opt_get (get "validations" fieldArgs) "notMatches" ]}) ]}))
  ∧ (get "type" fieldArgs ≠ enum_value GraphQLSimpleFieldType_Int →
     get "type" fieldArgs ≠ enum_value GraphQLSimpleFieldType_Float →
     get "type" fieldArgs ≠ enum_value GraphQLSimpleFieldType_String →
     extractFieldValidations fieldArgs
     = Throw (Error ("field validations not supported for "
                     +:+ to_string (get "type" fieldArgs)))).
Proof.
  intros Hnd.
  assert (Hne : GraphQLSimpleFieldType_Int ≠ GraphQLSimpleFieldType_Float
                ∧ GraphQLSimpleFieldType_Int ≠ GraphQLSimpleFieldType_String
                ∧ GraphQLSimpleFieldType_Float ≠ GraphQLSimpleFieldType_String).
  { rewrite !NoDup_cons, !not_elem_of_cons in Hnd.
    destruct Hnd as ((? & ? & _) & (? & _) & _). done. }
  destruct Hne as (Hif & His & Hfs).
  unfold extractFieldValidations. cbv zeta. repeat split.
  - intros ->. rewrite strict_eq_enum_refl. by destruct (truthy _).
  - intros ->. rewrite (strict_eq_enum_ne _ _ (not_eq_sym Hif)), strict_eq_enum_refl.
    by destruct (truthy _).
  - intros ->. rewrite (strict_eq_enum_ne _ _ (not_eq_sym His)),
      (strict_eq_enum_ne _ _ (not_eq_sym Hfs)), strict_eq_enum_refl.
    by destruct (truthy _).
  - intros Hni Hnf Hns. by rewrite !strict_eq_enum_false.
Qed.
End Validations.

(** ** Remote fields *)

Section Remote.
Context `{Schema} {L : Type} `{!ChangeListener L}.

(** The loop over the entries of the headers maps every value. *)
Lemma wrap_headers_fmap (headers : obj) :
  wrap_headers headers = (λ v, if isArray v then v else VArr [v]) <$> headers.
Proof.
  unfold wrap_headers.
  set (wrap := λ v, if isArray v then v else VArr [v]).
  assert (Hfold : ∀ base m : obj,
             map_fold (λ k v acc, <[k := wrap v]> acc) base m = (wrap <$> m) ∪ base).
  { intros base m. apply (map_fold_weak_ind (λ r m, r = (wrap <$> m) ∪ base)).
    - by rewrite fmap_empty, (left_id_L ∅ (∪)).
    - intros k v m' r _ ->. by rewrite fmap_insert, insert_union_l. }
  rewrite Hfold. apply map_eq. intros k.
  rewrite lookup_union, lookup_fmap. by destruct (headers !! k).
Qed.

Lemma wrap_headers_lookup (headers : obj) k :
  wrap_headers headers !! k
  = (λ v, if isArray v then v else VArr [v]) <$> headers !! k.
Proof. by rewrite wrap_headers_fmap, lookup_fmap. Qed.

Lemma wrap_headers_idemp (headers : obj) :
  wrap_headers (wrap_headers headers) = wrap_headers headers.
Proof.
  apply map_eq. intros k. rewrite !wrap_headers_lookup.
  destruct (headers !! k) as [v|]; [|done]. by destruct v.
Qed.

Lemma constructor_name_plain (headers : obj) :
  headers !! "constructor" = None →
  constructor_name (VObj headers) = Return (VStr "Object").
Proof. simpl. by intros ->. Qed.

(** What addRemoteField registers for a remote configuration whose
    headers are absent, or pass the test on their constructor. *)
Lemma addRemoteField_registers this (fieldArgs remoteConfig : obj) (st : L) :
  get "remoteConfig" fieldArgs = VObj remoteConfig →
  (truthy (get "headers" remoteConfig) = false
   ∨ ∃ headers : obj,
       get "headers" remoteConfig = VObj headers
       ∧ constructor_name (VObj headers) = Return (VStr "Object")) →
  ∃ (payload rc : obj),
    addRemoteField this fieldArgs st
    = (Return this, registerChange (new_Field payload Create (Some RemoteField)) st)
    ∧ payload !! "remoteConfig" = Some (VObj rc)
    ∧ rc !! "headers"
      = Some (VObj (match get "headers" remoteConfig with
                    | VObj headers => wrap_headers headers
                    | _ => ∅
                    end))
    ∧ rc !! "method" = Some (or_else (get "method" remoteConfig) (VStr "GET"))
    ∧ rc !! "payloadFieldApiIds"
      = Some (or_else (get "payloadFieldApiIds" remoteConfig) (VArr []))
    ∧ payload !! "type" = Some (enum_value GraphQLRemoteFieldType_Remote).
Proof.
  intros Hrc Hh. unfold addRemoteField. cbv zeta. run with Hrc.
  destruct Hh as [Hfalsy|(headers & Hh & Hname)].
  - run with Hfalsy. run with Hrc.
    destruct (get "headers" remoteConfig); try done; payload_exists.
  - run with Hh. rewrite Hname. run with Hrc. payload_exists.
Qed.

(** C7. For a remote configuration whose headers pass the test of
    addRemoteField on their constructor (as every object literal without a
    property named constructor does), the headers that are registered keep
    every value that is a list and hold every other value wrapped in a
    one-element list, under the same names; normalising the registered
    headers again changes nothing.  Headers that are absent are registered
    as the empty mapping, and a method that is unset as "GET". *)
Theorem C7_remote_headers_normalised
    this (fieldArgs remoteConfig : obj) (st : L) :
  get "remoteConfig" fieldArgs = VObj remoteConfig →
  (∀ headers : obj,
     get "headers" remoteConfig = VObj headers →
     constructor_name (VObj headers) = Return (VStr "Object") →
     ∃ (item : Field) (rc headers' : obj),
       addRemoteField this fieldArgs st = (Return this, registerChange item st)
       ∧ field_args item !! "remoteConfig" = Some (VObj rc)
       ∧ rc !! "headers" = Some (VObj headers')
       ∧ (∀ k l, headers !! k = Some (VArr l) → headers' !! k = Some (VArr l))
       ∧ (∀ k v, headers !! k = Some v → isArray v = false →
                 headers' !! k = Some (VArr [v]))
       ∧ (∀ k, headers !! k = None → headers' !! k = None)
       ∧ wrap_headers headers' = headers'
       ∧ (remoteConfig !! "method" = None → rc !! "method" = Some (VStr "GET")))
  ∧ (remoteConfig !! "headers" = None →
     ∃ (item : Field) (rc : obj),
       addRemoteField this fieldArgs st = (Return this, registerChange item st)
       ∧ field_args item !! "remoteConfig" = Some (VObj rc)
       ∧ rc !! "headers" = Some (VObj ∅)
       ∧ (remoteConfig !! "method" = None → rc !! "method" = Some (VStr "GET"))).
Proof.
  intros Hrc. split.
  - intros headers Hh Hname.
    destruct (addRemoteField_registers this fieldArgs remoteConfig st Hrc)
      as (payload & rc & Hrun & Hp & Hhs & Hm & _); [eauto|].
    rewrite Hh in Hhs.
    exists (new_Field payload Create (Some RemoteField)), rc, (wrap_headers headers).
    repeat split; try done.
    + intros k l Hk. by rewrite wrap_headers_lookup, Hk.
    + intros k v Hk Hv. by rewrite wrap_headers_lookup, Hk; simpl; rewrite Hv.
    + intros k Hk. by rewrite wrap_headers_lookup, Hk.
    + apply wrap_headers_idemp.
    + intros Hnone. by rewrite Hm, (get_None _ _ Hnone).
  - intros Hnone%get_None.
    destruct (addRemoteField_registers this fieldArgs remoteConfig st Hrc)
      as (payload & rc & Hrun & Hp & Hhs & Hm & _); [left; by rewrite Hnone|].
    rewrite Hnone in Hhs.
    exists (new_Field payload Create (Some RemoteField)), rc.
    repeat split; try done.
    intros Hmn. by rewrite Hm, (get_None _ _ Hmn).
Qed.
End Remote.

(** * The claims on examples

    The examples run on the accumulator, with the sample values for the
    enum members. *)

Section Examples.
#[local] Existing Instance sample_schema.

Lemma sample_relation_members_inj : Inj (=) (=) RelationType_member.
Proof. intros a b. destruct a, b; simpl; congruence. Defined.

Lemma sample_field_types_distinct :
  NoDup [GraphQLSimpleFieldType_Int;
         GraphQLSimpleFieldType_Float;
         GraphQLSimpleFieldType_String].
Proof. apply (bool_decide_unpack _). reflexivity. Defined.

(** Scenario A: a String field gets the single-line renderer. *)
Example scenario_A_registers :
  addSimpleField post_model scenario_A []
  = (Return post_model,
     [new_Field {[ "apiId" := VStr "title";
                   "type" := VStr "STRING";
                   "modelApiId" := VStr "Post";
                   "formRenderer" := VStr "GCMS_SINGLE_LINE" ]} Create None]).
Proof. reflexivity. Qed.

(** Scenario B reads as the specification writes it on a builder whose
    model is itself called author. *)
Example scenario_B_on_model_author :
  addRelationalField (new_ModelClass Create {[ "apiId" := VStr "author" ]})
    scenario_B []
  = (Return (new_ModelClass Create {[ "apiId" := VStr "author" ]}),
     [new_Field
        {[ "apiId" := VStr "author";
           "modelApiId" := VStr "author";
           "type" := VStr "RELATION";
           "isList" := VBool false;
           "reverseField" :=
             VObj {[ "apiId" := VStr "relatedauthor";
                     "displayName" := VStr "Related author";
                     "modelApiId" := VStr "User";
                     "isList" := VBool true ]} ]}
        Create (Some RelationalField)]).
Proof. reflexivity. Qed.

(** Scenario D. *)
Example scenario_D_registers :
  addRemoteField post_model scenario_D []
  = (Return post_model,
     [new_Field
        {[ "apiId" := VStr "weather";
           "modelApiId" := VStr "Post";
           "type" := VStr "REMOTE";
           "remoteConfig" :=
             VObj {[ "headers" := VObj {[ "X-Key" := VArr [VStr "abc"] ]};
                     "payloadFieldApiIds" := VArr [];
                     "method" := VStr "GET" ]} ]}
        Create (Some RemoteField)]).
Proof. reflexivity. Qed.

(** Headers that are no plain object are refused; so are headers with a
    header of their own named constructor. *)
Example headers_list_refused :
  addRemoteField post_model
    {[ "apiId" := VStr "weather";
       "remoteConfig" := VObj {[ "headers" := VArr [VStr "X-Key"] ]} ]} []
  = (Throw (Error "Headers in remote config has to be an object"), []).
Proof. reflexivity. Qed.

Example headers_named_constructor_refused :
  addRemoteField post_model
    {[ "apiId" := VStr "weather";
       "remoteConfig" :=
         VObj {[ "headers" := VObj {[ "constructor" := VStr "x" ]} ]} ]} []
  = (Throw (Error "Headers in remote config has to be an object"), []).
Proof. reflexivity. Qed.

Lemma C1_witness :
  (∃ (item : Field) (rev : obj),
     addRelationalField post_model content_args []
     = (Return post_model, registerChange item [])
     ∧ field_args item !! "isList" = Some (VBool true)
     ∧ field_args item !! "reverseField" = Some (VObj rev)
     ∧ rev !! "isList" = Some (VBool true))
  ∧ (∃ (item : Field) (rev : obj),
       addUnionField post_model content_args []
       = (Return post_model, registerChange item [])
       ∧ field_args item !! "isList" = Some (VBool true)
       ∧ field_args item !! "reverseField" = Some (VObj rev)
       ∧ rev !! "isList" = Some (VBool true)).
Proof.
  destruct (C1_listness_is_function_of_relationType
              post_model content_args ManyToMany []) as [Hrel Hunion].
  - exact sample_relation_members_inj.
  - reflexivity.
  - left. reflexivity.
  - split; [exact Hrel|]. apply Hunion. eexists _, _. reflexivity.
Defined.

(** The claim C2 as it is stated fails: on the builder of the model Post,
    the reverse field made up for the arguments of Scenario B is called
    relatedPost, after the model, and not relatedauthor, after the field. *)
Lemma C2_counterexample :
  ¬ (∀ (this : ModelClass) (st : list Field),
       ∃ (item : Field) (rev : obj),
         addRelationalField this scenario_B st = (Return this, registerChange item st)
         ∧ field_args item !! "reverseField" = Some (VObj rev)
         ∧ rev !! "apiId" = Some (VStr "relatedauthor")
         ∧ rev !! "displayName" = Some (VStr "Related author")).
Proof.
  intros Hclaim.
  destruct (Hclaim post_model []) as (item & rev & Hrun & Hrev & Hid & _).
  vm_compute in Hrun. injection Hrun as <-.
  vm_compute in Hrev. injection Hrev as <-.
  vm_compute in Hid. discriminate Hid.
Qed.

Lemma C2_witness :
  ∃ (item : Field) (rev : obj),
    addRelationalField post_model scenario_B []
    = (Return post_model, registerChange item [])
    ∧ field_mode item = Create
    ∧ field_args item !! "reverseField" = Some (VObj rev)
    ∧ rev !! "apiId" = Some (VStr "relatedPost")
    ∧ rev !! "displayName" = Some (VStr "Related Post")
    ∧ field_args item !! "isList" = Some (VBool false)
    ∧ rev !! "isList" = Some (VBool true).
Proof.
  exact (proj2 (C2_reverse_field_named_after_owning_model
                  post_model scenario_B [] sample_relation_members_inj)).
Defined.

Lemma C3_witness :
  (∃ (item : Field) (rev : obj),
     addRelationalField post_model cover_args []
     = (Return post_model, registerChange item [])
     ∧ field_args item !! "reverseField" = Some (VObj rev)
     ∧ rev !! "isList" = Some (VBool true)
     ∧ rev !! "isHidden" = Some (VBool true)
     ∧ (cover_args !! "isRequired" = None →
        field_args item !! "isRequired" = Some (VBool false)))
  ∧ (∃ item : Field,
       addRelationalField post_model (<["isRequired" := VBool true]> scenario_B) []
       = (Return post_model, registerChange item [])
       ∧ field_args item !! "isRequired" = None).
Proof.
  split.
  - apply (C3_asset_relations post_model cover_args []).
    + left. reflexivity.
    + right. reflexivity.
  - apply (C3_asset_relations post_model (<["isRequired" := VBool true]> scenario_B) []).
    + left. reflexivity.
    + intros [Ht|Hm]; vm_compute in *; discriminate.
Defined.

Lemma C4_witness :
  addUnionField post_model scenario_C []
  = (Throw (Error "models cannot be empty"), []).
Proof.
  apply (C4_union_without_models_registers_nothing post_model scenario_C []).
  right. reflexivity.
Defined.

Lemma C5_witness :
  hasChanges (new_ModelClass Update {[ "apiId" := VStr "Post" ]}) = false
  ∧ hasChanges (new_ModelClass Update
                  {[ "apiId" := VStr "Post"; "displayName" := VStr "Article" ]})
    = true.
Proof.
  split.
  - apply (proj2 (proj2 (C5_hasChanges
                   (new_ModelClass Update {[ "apiId" := VStr "Post" ]})))
             eq_refl (VStr "Post")).
    reflexivity.
  - apply (proj1 (proj2 (C5_hasChanges
                   (new_ModelClass Update
                      {[ "apiId" := VStr "Post"; "displayName" := VStr "Article" ]})))).
    + reflexivity.
    + eexists. reflexivity.
    + exists "displayName". split; [discriminate|]. eexists. reflexivity.
Defined.

Lemma C6_witness :
  ∃ item : Field,
    updateSimpleField post_model title_args []
    = (Return post_model, registerChange item [])
    ∧ field_mode item = Update
    ∧ field_args item !! "type" = None.
Proof.
  apply (C6_updateSimpleField_drops_type post_model title_args []).
  left. reflexivity.
Defined.

Lemma C7_witness :
  ∃ (item : Field) (rc headers' : obj),
    addRemoteField post_model scenario_D []
    = (Return post_model, registerChange item [])
    ∧ field_args item !! "remoteConfig" = Some (VObj rc)
    ∧ rc !! "headers" = Some (VObj headers')
    ∧ headers' !! "X-Key" = Some (VArr [VStr "abc"])
    ∧ rc !! "method" = Some (VStr "GET").
Proof.
  destruct (C7_remote_headers_normalised
              post_model scenario_D
              {[ "headers" := VObj {[ "X-Key" := VStr "abc" ]} ]} [] eq_refl)
    as [Hheaders _].
  destruct (Hheaders {[ "X-Key" := VStr "abc" ]} eq_refl eq_refl)
    as (item & rc & headers' & Hrun & Hrc & Hh & _ & Hwrap & _ & _ & Hmethod).
  exists item, rc, headers'. repeat split; try done.
  - by apply Hwrap.
  - by apply Hmethod.
Defined.

Lemma C8_witness :
  extractFieldValidations rating_args
  = Return (VObj {[ "Int" := VObj
      {[ "range" := VObj {[ "min" := VNum 1; "max" := VNum 5 ]};
         "listItemCount" := VUndefined ]} ]}).
Proof.
  exact (proj1 (C8_extractFieldValidations rating_args sample_field_types_distinct)
           eq_refl).
Defined.

Lemma C9_witness :
  ∃ item : Field,
    [new_Field {[ "apiId" := VStr "title"; "modelApiId" := VStr "Post" ]} Delete None;
     new_Field {[ "apiId" := VStr "title"; "modelApiId" := VStr "Post" ]} Delete None]
    = ([new_Field {[ "apiId" := VStr "title"; "modelApiId" := VStr "Post" ]} Delete None]
       ++ [item])%list.
Proof.
  apply (C9_call_appends_one_item post_model (DeleteField "title")
           [new_Field {[ "apiId" := VStr "title"; "modelApiId" := VStr "Post" ]}
              Delete None]
           _ post_model).
  reflexivity.
Defined.

Lemma C10_witness :
  updateSimpleField post_model untyped_args []
  = (Throw (Error "field validations not supported for undefined"), []).
Proof.
  exact (C10_update_validations_need_type post_model untyped_args
           {[ "characters" := VObj {[ "max" := VNum 80 ]} ]} [] eq_refl eq_refl).
Defined.
End Examples.

(** * Further properties of the builder *)

(** ** What every call registers *)

Section Items.
Context {L : Type} `{!ChangeListener L}.

Lemma silent_with_ret {A} (Q : A → Prop) (a : A) :
  Q a → silent_with (L := L) Q (ret a).
Proof. by intros Ha st. Qed.

Lemma silent_with_lift {A} (Q : A → Prop) (o : outcome A) :
  (∀ a, o = Return a → Q a) → silent_with (L := L) Q (lift o).
Proof. intros Ho st. unfold lift. destruct o; auto. Qed.

Lemma silent_with_bind {A B} (Q : A → Prop) (R : B → Prop)
    (m : M L A) (f : A → M L B) :
  silent_with Q m → (∀ a, Q a → silent_with R (f a)) → silent_with R (bind m f).
Proof.
  intros Hm Hf st. unfold bind. specialize (Hm st).
  destruct (m st) as [[a|e|] st1]; [|done..].
  destruct Hm as [-> Ha]. by apply Hf.
Qed.

Lemma registers_item_bind {A B} (Q : A → Prop) (P : Field → B → Prop)
    (m : M L A) (f : A → M L B) :
  silent_with Q m → (∀ a, Q a → registers_item P (f a)) →
  registers_item P (bind m f).
Proof.
  intros Hm Hf st. unfold bind. specialize (Hm st).
  destruct (m st) as [[a|e|] st1]; [|done..].
  destruct Hm as [-> Ha]. by apply Hf.
Qed.

Lemma registers_item_throw {A} (P : Field → A → Prop) (e : error) :
  registers_item (L := L) P (lift (Throw e)).
Proof. by intros st. Qed.

Lemma registers_item_register {A} (P : Field → A → Prop) (field : Field) (a : A) :
  P field a → registers_item P (register field;; ret a).
Proof. intros HP st. simpl. by exists field. Qed.

(** Storing into an object nested under [k1] leaves the other properties
    of the bag as they are. *)
Lemma set_in_keeps (k1 k2 k : string) (x : value) (o o' : obj) :
  k1 ≠ k → set_in k1 k2 x o = Return o' → o' !! k = o !! k.
Proof.
  intros Hne. unfold set_in.
  destruct (set_prop (get k1 o) k2 x) as [r| |]; simpl; [|done..].
  intros [= <-]. by rewrite lookup_insert_ne.
Qed.

Lemma silent_with_extract_validations `{Schema} (k : string) (fieldArgs : obj) :
  k ≠ "validations" →
  silent_with (L := L) (λ o, o !! k = fieldArgs !! k) (extract_validations fieldArgs).
Proof.
  intros Hne st.
  destruct (extract_validations_cases fieldArgs st)
    as [(f' & -> & [->|[v ->]])|(e & ->)]; [done| |done].
  split; [done|]. by rewrite lookup_insert_ne.
Qed.

Lemma silent_silent_with {A} (m : M L A) :
  silent m → silent_with (λ _, True) m.
Proof.
  intros Hm st. specialize (Hm st). by destruct (m st) as [[a|e|] st1]; simpl in *.
Qed.

Lemma silent_with_mono {A} (Q R : A → Prop) (m : M L A) :
  silent_with Q m → (∀ a, Q a → R a) → silent_with R m.
Proof.
  intros Hm HQR st. specialize (Hm st).
  destruct (m st) as [[a|e|] st1]; [|done..]. destruct Hm. auto.
Qed.
End Items.

(** Reads a property through the updates made to a bag since it was last
    known. *)
Ltac keep_solve :=
  repeat first
    [ assumption
    | progress lookup_norm
    | match goal with
      | |- context [if ?b then _ else _] => destruct b
      end
    | done ].

(** A computation on the bag keeps the property [k] it has at a value. *)
Ltac keeps_tac key v :=
  lazymatch goal with
  | |- silent_with _ (ret _) => apply silent_with_ret; keep_solve
  | |- silent_with _ (lift (set_in _ _ _ _)) =>
      apply silent_with_lift;
      let a := fresh "a" in let Ha := fresh "Ha" in
      intros a Ha; apply set_in_keeps with (k := key) in Ha; [|done];
      rewrite Ha; keep_solve
  | |- silent_with _ (lift _) => apply silent_with_lift; intros ? [=]
  | |- silent_with _ (extract_validations _) =>
      eapply silent_with_mono;
      [apply (silent_with_extract_validations key); done
      |let a := fresh "a" in let Ha := fresh "Ha" in
       intros a Ha; cbv beta in Ha; rewrite Ha; keep_solve]
  | |- silent_with _ (if ?b then _ else _) => destruct b; keeps_tac key v
  | |- silent_with _ (match ?x with _ => _ end) =>
      destruct x; cbv beta iota; keeps_tac key v
  | |- silent_with _ (bind ?m _) =>
      lazymatch type of m with
      | M _ (gmap string value) =>
          eapply (silent_with_bind (λ o : obj, o !! key = Some v));
          [keeps_tac key v|intros ? ?; keeps_tac key v]
      | _ =>
          eapply (silent_with_bind (λ _, True));
          [apply silent_silent_with; silent_tac|intros ? _; keeps_tac key v]
      end
  end.

(** A method registers an item that has the property [k] of the bag. *)
Ltac item_tac key v :=
  lazymatch goal with
  | |- registers_item _ (register _;; ret _) =>
      apply registers_item_register; simpl; repeat split; keep_solve
  | |- registers_item _ (lift (Throw _)) => apply registers_item_throw
  | |- registers_item _ (if ?b then _ else _) => destruct b; item_tac key v
  | |- registers_item _ (bind ?m _) =>
      lazymatch type of m with
      | M _ (gmap string value) =>
          eapply (registers_item_bind (λ o : obj, o !! key = Some v));
          [keeps_tac key v|intros ? ?; item_tac key v]
      | _ =>
          eapply (registers_item_bind (λ _, True));
          [apply silent_silent_with; silent_tac|intros ? _; item_tac key v]
      end
  end.

Section Calls_items.
Context `{Schema} {L : Type} `{!ChangeListener L}.

Lemma perform_registers_item this (c : call) :
  registers_item (L := L)
    (λ item m,
       m = this
       ∧ field_args item !! "modelApiId" = Some (get "apiId" (args this))
       ∧ field_mode item = call_mode c
       ∧ field_type item = call_type c)
    (perform this c).
Proof.
  destruct c; simpl.
  - unfold addSimpleField. cbv zeta. item_tac "modelApiId" (get "apiId" (args this)).
  - unfold addRemoteField. cbv zeta. item_tac "modelApiId" (get "apiId" (args this)).
  - unfold updateSimpleField. cbv zeta. item_tac "modelApiId" (get "apiId" (args this)).
  - unfold addRelationalField. cbv zeta. item_tac "modelApiId" (get "apiId" (args this)).
  - unfold updateRelationalField. cbv zeta. item_tac "modelApiId" (get "apiId" (args this)).
  - unfold addUnionField. cbv zeta. item_tac "modelApiId" (get "apiId" (args this)).
  - unfold updateUnionField. cbv zeta. item_tac "modelApiId" (get "apiId" (args this)).
  - unfold addEnumerableField. cbv zeta. item_tac "modelApiId" (get "apiId" (args this)).
  - unfold updateEnumerableField. cbv zeta. item_tac "modelApiId" (get "apiId" (args this)).
  - unfold deleteField. cbv zeta. item_tac "modelApiId" (get "apiId" (args this)).
Qed.
End Calls_items.

Section Every_call.
Context `{Schema} {L : Type} `{!ChangeListener L}.

(** X1. Whatever the arguments, a call that returns has returned the
    builder itself and registered one item, whose payload carries the apiId
    of the builder's model as modelApiId (also when the caller put a
    modelApiId of its own in the arguments), in the mutation mode and the
    field category of the method called. *)
Theorem call_registers_item_of_model
    this (c : call) (st st' : L) (m : ModelClass) :
  perform this c st = (Return m, st') →
  m = this
  ∧ ∃ item : Field,
      st' = registerChange item st
      ∧ field_args item !! "modelApiId" = Some (get "apiId" (args this))
      ∧ field_mode item = call_mode c
      ∧ field_type item = call_type c.
Proof.
  intros Hrun. pose proof (perform_registers_item this c st) as Hitem.
  rewrite Hrun in Hitem. destruct Hitem as (item & -> & -> & ?). eauto.
Qed.

(** X2. A call that does not return, whatever the method, the arguments
    and the listener, has not called the listener: its state is what it was
    before the call. *)
Theorem failed_call_registers_nothing
    this (c : call) (st st' : L) (o : outcome ModelClass) :
  perform this c st = (o, st') →
  (∀ m, o ≠ Return m) →
  st' = st.
Proof.
  intros Hrun Hfail. pose proof (perform_registers_once this c st) as Honce.
  rewrite Hrun in Honce. destruct o; [by destruct (Hfail a)|done..].
Qed.
End Every_call.


(** ** Simple fields: renderer, validations, untouched attributes *)

Section Simple_more.
Context `{Schema} {L : Type} `{!ChangeListener L}.

Lemma truthy_get_Some k (o : obj) :
  truthy (get k o) = true → o !! k = Some (get k o).
Proof. unfold get. by destruct (o !! k). Qed.

(** The extractor reads the type, the validations and isList, and nothing
    else. *)
Lemma extractFieldValidations_insert_ne k v (fieldArgs : obj) :
  k ≠ "type" → k ≠ "validations" → k ≠ "isList" →
  extractFieldValidations (<[k := v]> fieldArgs) = extractFieldValidations fieldArgs.
Proof. intros. unfold extractFieldValidations. by get_norm. Qed.

(** How the validation step ends, by what the extractor does. *)
Lemma extract_validations_run (fieldArgs : obj) (st : L) :
  extract_validations fieldArgs st
  = if truthy (get "validations" fieldArgs)
    then match extractFieldValidations fieldArgs with
         | Return v => (Return (<["validations" := v]> fieldArgs), st)
         | Throw e => (Throw e, st)
         | Unmodelled => (Unmodelled, st)
         end
    else (Return fieldArgs, st).
Proof.
  unfold extract_validations. destruct (truthy _); [|done].
  unfold bind, lift. by destruct (extractFieldValidations fieldArgs).
Qed.

(** X4. When addSimpleField returns, the item it has registered is in
    Create mode; for a String field its formRenderer is the single-line
    renderer unless the caller gave a renderer, which is kept; for any other
    type the formRenderer is as the caller gave it, or absent; and every
    attribute other than modelApiId, formRenderer and validations is as the
    caller gave it. *)
Theorem addSimpleField_formRenderer
    this (fieldArgs : obj) (st st' : L) (m : ModelClass) :
  addSimpleField this fieldArgs st = (Return m, st') →
  ∃ item : Field,
    st' = registerChange item st
    ∧ field_mode item = Create
    ∧ (get "type" fieldArgs = enum_value GraphQLSimpleFieldType_String →
       truthy (get "formRenderer" fieldArgs) = false →
       field_args item !! "formRenderer" = Some (enum_value Renderer_SingleLine))
    ∧ (get "type" fieldArgs = enum_value GraphQLSimpleFieldType_String →
       truthy (get "formRenderer" fieldArgs) = true →
       field_args item !! "formRenderer" = fieldArgs !! "formRenderer")
    ∧ (get "type" fieldArgs ≠ enum_value GraphQLSimpleFieldType_String →
       field_args item !! "formRenderer" = fieldArgs !! "formRenderer")
    ∧ (∀ k, k ≠ "modelApiId" → k ≠ "formRenderer" → k ≠ "validations" →
            field_args item !! k = fieldArgs !! k).
Proof.
  unfold addSimpleField. cbv zeta. unfold bind at 1. get_norm.
  set (f1 := <["modelApiId" := get "apiId" (args this)]> fieldArgs).
  set (f2 := if strict_eq (get "type" fieldArgs)
                  (enum_value GraphQLSimpleFieldType_String)
             then <["formRenderer" :=
                      or_else (get "formRenderer" fieldArgs)
                        (enum_value Renderer_SingleLine)]> f1
             else f1).
  destruct (extract_validations_cases f2 st) as [(f' & -> & Hf')|(e & ->)]; [|done].
  run. intros [= _ <-]. eexists. split; [done|]. split; [done|]. simpl.
  assert (Hk : ∀ k, k ≠ "validations" → f' !! k = f2 !! k).
  { intros k Hk. destruct Hf' as [->|[v ->]]; [done|by rewrite lookup_insert_ne]. }
  repeat split.
  - intros Ht Hfr. rewrite Hk by done. unfold f2, or_else.
    by rewrite Ht, strict_eq_enum_refl, Hfr, lookup_insert_eq.
  - intros Ht Hfr. rewrite Hk by done. unfold f2, or_else.
    rewrite Ht, strict_eq_enum_refl, Hfr, lookup_insert_eq.
    by rewrite truthy_get_Some.
  - intros Ht. rewrite Hk by done. unfold f2, f1.
    rewrite strict_eq_enum_false by done. by rewrite lookup_insert_ne.
  - intros k ? ? ?. rewrite Hk by done. unfold f2, f1.
    destruct (strict_eq _ _); by lookup_norm.
Qed.

(** X5. addSimpleField and updateSimpleField hand the validations to the
    extractor and go by what it does with the caller's arguments: they
    register what it returns as the validations of the item, they throw what
    it throws, without registering; and when there are no validations they
    register without asking it. *)
Theorem simple_field_validations_delegated this (fieldArgs : obj) (st : L) :
  (truthy (get "validations" fieldArgs) = true →
   ∀ v, extractFieldValidations fieldArgs = Return v →
     (∃ item : Field,
        addSimpleField this fieldArgs st = (Return this, registerChange item st)
        ∧ field_args item !! "validations" = Some v)
     ∧ (∃ item : Field,
          updateSimpleField this fieldArgs st = (Return this, registerChange item st)
          ∧ field_args item !! "validations" = Some v))
  ∧ (truthy (get "validations" fieldArgs) = true →
     ∀ e, extractFieldValidations fieldArgs = Throw e →
       addSimpleField this fieldArgs st = (Throw e, st)
       ∧ updateSimpleField this fieldArgs st = (Throw e, st))
  ∧ (truthy (get "validations" fieldArgs) = false →
     (∃ item : Field,
        addSimpleField this fieldArgs st = (Return this, registerChange item st)
        ∧ field_args item !! "validations" = fieldArgs !! "validations")
     ∧ (∃ item : Field,
          updateSimpleField this fieldArgs st = (Return this, registerChange item st)
          ∧ field_args item !! "validations" = fieldArgs !! "validations")).
Proof.
  assert (Hadd : ∀ f : obj,
    extractFieldValidations
      (if strict_eq (get "type" f) (enum_value GraphQLSimpleFieldType_String)
       then <["formRenderer" :=
                or_else (get "formRenderer" f) (enum_value Renderer_SingleLine)]>
              (<["modelApiId" := get "apiId" (args this)]> f)
       else <["modelApiId" := get "apiId" (args this)]> f)
    = extractFieldValidations f).
  { intros f. destruct (strict_eq _ _);
      by rewrite !extractFieldValidations_insert_ne. }
  assert (Hval : ∀ f : obj,
    get "validations"
      (if strict_eq (get "type" f) (enum_value GraphQLSimpleFieldType_String)
       then <["formRenderer" :=
                or_else (get "formRenderer" f) (enum_value Renderer_SingleLine)]>
              (<["modelApiId" := get "apiId" (args this)]> f)
       else <["modelApiId" := get "apiId" (args this)]> f)
    = get "validations" f).
  { intros f. destruct (strict_eq _ _); by get_norm. }
  unfold addSimpleField, updateSimpleField. cbv zeta. unfold bind at 1 3 5 7 9 11.
  get_norm. rewrite !extract_validations_run, Hadd, Hval.
  rewrite extractFieldValidations_insert_ne by done. get_norm.
  split; [|split].
  - intros -> v ->. run.
    split; (eexists; split; [done|]; simpl; by lookup_norm).
  - by intros -> e ->.
  - intros Hv. rewrite Hv. run.
    split; (eexists; split; [done|]; simpl).
    + destruct (strict_eq _ _); by lookup_norm.
    + by lookup_norm.
Qed.

(** X6. When updateSimpleField returns, every attribute of the registered
    payload other than modelApiId, validations and type is as the caller
    gave it; in particular no formRenderer is made up on update. *)
Theorem updateSimpleField_keeps_attributes
    this (fieldArgs : obj) (st st' : L) (m : ModelClass) :
  updateSimpleField this fieldArgs st = (Return m, st') →
  ∃ item : Field,
    st' = registerChange item st
    ∧ (∀ k, k ≠ "modelApiId" → k ≠ "validations" → k ≠ "type" →
            field_args item !! k = fieldArgs !! k)
    ∧ field_args item !! "formRenderer" = fieldArgs !! "formRenderer".
Proof.
  unfold updateSimpleField. cbv zeta. unfold bind at 1.
  set (f1 := <["modelApiId" := get "apiId" (args this)]> fieldArgs).
  destruct (extract_validations_cases f1 st) as [(f' & -> & Hf')|(e & ->)]; [|done].
  run. intros [= _ <-]. eexists. split; [done|]. simpl.
  assert (Hk : ∀ k, k ≠ "modelApiId" → k ≠ "validations" → k ≠ "type" →
               delete "type" f' !! k = fieldArgs !! k).
  { intros k ? ? ?. unfold f1 in Hf'.
    destruct Hf' as [->|[v ->]]; by lookup_norm. }
  split; [done|]. by apply Hk.
Qed.
End Simple_more.

(** ** Enumerable fields, union updates, change descriptors *)

Section Others.
Context `{Schema} {L : Type} `{!ChangeListener L}.

(** X7. addEnumerableField throws, and registers nothing, exactly when
    enumerationApiId is absent or falsy; otherwise it registers, in Create
    mode, the caller's arguments with the modelApiId of the builder.
    updateEnumerableField makes no such test: it registers whatever the
    arguments are. *)
Theorem enumerable_field_requires_enumeration
    this (fieldArgs : obj) (st : L) :
  (truthy (get "enumerationApiId" fieldArgs) = false →
   addEnumerableField this fieldArgs st
   = (Throw (Error "enumerationApiId is required for enumerable field"), st))
  ∧ (truthy (get "enumerationApiId" fieldArgs) = true →
     addEnumerableField this fieldArgs st
     = (Return this,
        registerChange
          (new_Field (<["modelApiId" := get "apiId" (args this)]> fieldArgs)
             Create (Some EnumerableField)) st))
  ∧ updateEnumerableField this fieldArgs st
    = (Return this,
       registerChange
         (new_Field (<["modelApiId" := get "apiId" (args this)]> fieldArgs)
            Update (Some EnumerableField)) st).
Proof.
  unfold addEnumerableField, updateEnumerableField. cbv zeta.
  split; [|split]; [by intros ->|by intros ->|done].
Qed.

(** X8. updateUnionField always returns, and what it registers does not
    depend on a reverseField in the arguments: the reverse field of the
    payload is made of the caller's models alone, [{modelApiIds: models}]
    (with modelApiIds undefined when there are no models), and the payload
    has no models. *)
Theorem updateUnionField_replaces_reverseField
    this (fieldArgs : obj) (reverseField : value) (st : L) :
  updateUnionField this (<["reverseField" := reverseField]> fieldArgs) st
  = updateUnionField this fieldArgs st
  ∧ ∃ item : Field,
      updateUnionField this fieldArgs st = (Return this, registerChange item st)
      ∧ field_mode item = Update
      ∧ field_args item !! "reverseField"
        = Some (VObj {[ "modelApiIds" := get "models" fieldArgs ]})
      ∧ field_args item !! "models" = None.
Proof.
  unfold updateUnionField. cbv zeta. get_norm. split.
  - rewrite (insert_insert_ne _ "modelApiId" "reverseField") by done.
    by rewrite insert_insert_eq.
  - eexists. split; [done|]. simpl. by lookup_norm.
Qed.
End Others.

(** X9. The change descriptor of a model determines the change: two model
    items with the same descriptor have the same mode and the same
    payload.  The descriptor has one key, and the payload under it. *)
Theorem generateChange_determines_change (this this' : ModelClass) :
  size (generateChange this) = 1
  ∧ (generateChange this = generateChange this' → this = this').
Proof.
  unfold generateChange. cbv zeta. split; [apply map_size_singleton|].
  intros [Haction [= Hargs]]%(inj2 singletonM).
  destruct this as [md ar], this' as [md' ar']; simpl in *. subst.
  by destruct md, md'.
Qed.

(** ** Remote fields: refusals and untouched attributes *)

Section Remote_more.
Context `{Schema} {L : Type} `{!ChangeListener L}.

(** X10. addRemoteField refuses headers that are given and are no object
    (a list, a string, a number, a boolean): it throws its error and
    registers nothing. *)
Theorem addRemoteField_refuses_non_object_headers
    this (fieldArgs remoteConfig : obj) (st : L) :
  get "remoteConfig" fieldArgs = VObj remoteConfig →
  truthy (get "headers" remoteConfig) = true →
  (∀ o : obj, get "headers" remoteConfig ≠ VObj o) →
  addRemoteField this fieldArgs st
  = (Throw (Error "Headers in remote config has to be an object"), st).
Proof.
  intros Hrc Ht Hno. unfold addRemoteField. cbv zeta. run with Hrc.
  destruct (get "headers" remoteConfig) as [| |b|n|s|l|o];
    try discriminate; [..|by destruct (Hno o)].
  all: cbn [truthy negb] in Ht; try subst b;
    by repeat (run; rewrite ?Ht; cbn [constructor_name]).
Qed.

(** X11. The test on the headers looks at their property "constructor": an
    object of headers one of which is itself named constructor, with a
    string or a list for its value, is refused like headers that are no
    object. *)
Theorem addRemoteField_refuses_header_named_constructor
    this (fieldArgs remoteConfig headers : obj) (c : value) (st : L) :
  get "remoteConfig" fieldArgs = VObj remoteConfig →
  get "headers" remoteConfig = VObj headers →
  headers !! "constructor" = Some c →
  (∃ s, c = VStr s) ∨ (∃ l, c = VArr l) →
  addRemoteField this fieldArgs st
  = (Throw (Error "Headers in remote config has to be an object"), st).
Proof.
  intros Hrc Hh Hc Hkind. unfold addRemoteField. cbv zeta.
  run with Hrc. run with Hh. simpl. rewrite Hc.
  by destruct Hkind as [[s ->]|[l ->]].
Qed.

(** X12. Without a remoteConfig, addRemoteField fails with a TypeError on
    reading its headers, and registers nothing. *)
Theorem addRemoteField_needs_remoteConfig this (fieldArgs : obj) (st : L) :
  fieldArgs !! "remoteConfig" = None →
  addRemoteField this fieldArgs st = (Throw TypeError, st).
Proof.
  intros Hrc%get_None. unfold addRemoteField. cbv zeta. by run with Hrc.
Qed.

(** X13. For a remote configuration that is accepted, addRemoteField
    registers a Create item whose type is the Remote type whatever type the
    caller gave; the other attributes of the arguments are as given; in the
    remote configuration, payloadFieldApiIds and method are kept when given
    and become the empty list and "GET" when absent or falsy, and every
    attribute other than these two and the headers is as given. *)
Theorem addRemoteField_type_and_defaults
    this (fieldArgs remoteConfig : obj) (st : L) :
  get "remoteConfig" fieldArgs = VObj remoteConfig →
  (truthy (get "headers" remoteConfig) = false
   ∨ ∃ headers : obj,
       get "headers" remoteConfig = VObj headers
       ∧ constructor_name (VObj headers) = Return (VStr "Object")) →
  ∃ (item : Field) (rc : obj),
    addRemoteField this fieldArgs st = (Return this, registerChange item st)
    ∧ field_mode item = Create
    ∧ field_args item !! "type" = Some (enum_value GraphQLRemoteFieldType_Remote)
    ∧ field_args item !! "remoteConfig" = Some (VObj rc)
    ∧ (∀ k, k ≠ "modelApiId" → k ≠ "type" → k ≠ "remoteConfig" →
            field_args item !! k = fieldArgs !! k)
    ∧ (∀ k, k ≠ "headers" → k ≠ "payloadFieldApiIds" → k ≠ "method" →
            rc !! k = remoteConfig !! k)
    ∧ (truthy (get "payloadFieldApiIds" remoteConfig) = true →
       rc !! "payloadFieldApiIds" = remoteConfig !! "payloadFieldApiIds")
    ∧ (truthy (get "payloadFieldApiIds" remoteConfig) = false →
       rc !! "payloadFieldApiIds" = Some (VArr []))
    ∧ (truthy (get "method" remoteConfig) = true →
       rc !! "method" = remoteConfig !! "method")
    ∧ (truthy (get "method" remoteConfig) = false →
       rc !! "method" = Some (VStr "GET")).
Proof.
  intros Hrc Hh. unfold addRemoteField. cbv zeta. run with Hrc.
  assert (Hend : ∀ hs : value,
    ∃ (item : Field) (rc : obj),
      (Return this,
       registerChange
         (new_Field
            (<["remoteConfig" := VObj
                 (<["method" := or_else (get "method" remoteConfig) (VStr "GET")]>
                    (<["payloadFieldApiIds" :=
                         or_else (get "payloadFieldApiIds" remoteConfig) (VArr [])]>
                       (<["headers" := hs]> remoteConfig)))]>
               (<["remoteConfig" := VObj
                    (<["payloadFieldApiIds" :=
                         or_else (get "payloadFieldApiIds" remoteConfig) (VArr [])]>
                       (<["headers" := hs]> remoteConfig))]>
                  (<["remoteConfig" := VObj (<["headers" := hs]> remoteConfig)]>
                     (<["type" := enum_value GraphQLRemoteFieldType_Remote]>
                        (<["modelApiId" := get "apiId" (args this)]> fieldArgs)))))
            Create (Some RemoteField)) st)
      = (Return this, registerChange item st)
      ∧ field_mode item = Create
      ∧ field_args item !! "type" = Some (enum_value GraphQLRemoteFieldType_Remote)
      ∧ field_args item !! "remoteConfig" = Some (VObj rc)
      ∧ (∀ k, k ≠ "modelApiId" → k ≠ "type" → k ≠ "remoteConfig" →
              field_args item !! k = fieldArgs !! k)
      ∧ (∀ k, k ≠ "headers" → k ≠ "payloadFieldApiIds" → k ≠ "method" →
              rc !! k = remoteConfig !! k)
      ∧ (truthy (get "payloadFieldApiIds" remoteConfig) = true →
         rc !! "payloadFieldApiIds" = remoteConfig !! "payloadFieldApiIds")
      ∧ (truthy (get "payloadFieldApiIds" remoteConfig) = false →
         rc !! "payloadFieldApiIds" = Some (VArr []))
      ∧ (truthy (get "method" remoteConfig) = true →
         rc !! "method" = remoteConfig !! "method")
      ∧ (truthy (get "method" remoteConfig) = false →
         rc !! "method" = Some (VStr "GET"))).
  { intros hs. eexists _, _. split; [reflexivity|]. simpl.
    split; [done|]. split; [by lookup_norm|].
    split; [lookup_norm; reflexivity|].
    split; [intros; by lookup_norm|]. split; [intros; by lookup_norm|].
    unfold or_else. lookup_norm.
    repeat split; intros Ht; rewrite Ht; [by rewrite truthy_get_Some|done| |done].
    by rewrite truthy_get_Some. }
  destruct Hh as [Hfalsy|(headers & Hh & Hname)].
  - run with Hfalsy. run with Hrc. apply Hend.
  - run with Hh. rewrite Hname. run with Hrc. apply Hend.
Qed.
End Remote_more.

(** ** Relational and union fields: what is removed, set and kept *)

Section Relations_more.
Context `{Schema} {L : Type} `{!ChangeListener L}.

(** X14. When the reverse field is absent or an object, addRelationalField
    registers a payload without the convenience attributes model and
    relationType; its type is "ASSET" or "RELATION" by the ASSET test,
    whatever type the caller gave; the reverse field points to the caller's
    model; an isRequired the caller gave on an ASSET relation is kept; the
    attributes of a reverse field the caller gave are kept, but for
    modelApiId, isList and, on an ASSET relation, isHidden; and every other
    attribute of the arguments is as given. *)
Theorem addRelationalField_strips_and_keeps this (fieldArgs : obj) (st : L) :
  reverseField_ok fieldArgs →
  ∃ (item : Field) (rev : obj),
    addRelationalField this fieldArgs st = (Return this, registerChange item st)
    ∧ field_args item !! "model" = None
    ∧ field_args item !! "relationType" = None
    ∧ field_args item !! "type"
      = Some (VStr (if is_asset fieldArgs then "ASSET" else "RELATION"))
    ∧ field_args item !! "reverseField" = Some (VObj rev)
    ∧ rev !! "modelApiId" = Some (get "model" fieldArgs)
    ∧ (is_asset fieldArgs = true →
       strict_eq (get "isRequired" fieldArgs) VUndefined = false →
       field_args item !! "isRequired" = fieldArgs !! "isRequired")
    ∧ (∀ (o : obj) k,
         get "reverseField" fieldArgs = VObj o →
         k ≠ "modelApiId" → k ≠ "isList" →
         k ≠ "isHidden" ∨ is_asset fieldArgs = false →
         rev !! k = o !! k)
    ∧ (∀ k, k ≠ "modelApiId" → k ≠ "type" → k ≠ "reverseField" →
            k ≠ "isList" → k ≠ "isRequired" → k ≠ "model" →
            k ≠ "relationType" → field_args item !! k = fieldArgs !! k).
Proof.
  intros Hok. unfold addRelationalField, default_reverseField, relationType_is.
  cbv zeta.
  destruct (is_asset fieldArgs) eqn:Ha; get_norm; rewrite Ha;
    (destruct Hok as [Hrev|[o Hrev]]; run with Hrev);
    try (destruct (strict_eq (get "isRequired" fieldArgs) VUndefined) eqn:Hreq; run).
  all: eexists _, _; split; [reflexivity|]; simpl.
  all: split; [by lookup_norm|]; split; [by lookup_norm|].
  all: split; [by lookup_norm|]; split; [lookup_norm; reflexivity|].
  all: split; [by lookup_norm|].
  all: split; [intros; try done; by lookup_norm|].
  all: split; [|intros; by lookup_norm].
  all: intros o' k Ho' ? ? Hk; try (rewrite Ho' in Hrev; discriminate Hrev);
    injection Ho' as <-.
  all: destruct Hk as [Hk|Hk]; try done; by lookup_norm.
Qed.

(** X15. When the models are a non-empty list and the reverse field is
    absent or an object, addUnionField registers a payload without the
    convenience attributes models and relationType; the reverse field lists
    the caller's models; the attributes of a reverse field the caller gave
    are kept, but for modelApiIds and isList; and every other attribute of
    the arguments is as given: unlike addRelationalField, it neither sets a
    type nor removes isRequired. *)
Theorem addUnionField_strips_and_keeps this (fieldArgs : obj) (st : L) :
  models_given fieldArgs →
  reverseField_ok fieldArgs →
  ∃ (item : Field) (rev : obj),
    addUnionField this fieldArgs st = (Return this, registerChange item st)
    ∧ field_args item !! "models" = None
    ∧ field_args item !! "relationType" = None
    ∧ field_args item !! "reverseField" = Some (VObj rev)
    ∧ rev !! "modelApiIds" = Some (get "models" fieldArgs)
    ∧ (∀ (o : obj) k,
         get "reverseField" fieldArgs = VObj o →
         k ≠ "modelApiIds" → k ≠ "isList" → rev !! k = o !! k)
    ∧ (∀ k, k ≠ "modelApiId" → k ≠ "reverseField" → k ≠ "isList" →
            k ≠ "models" → k ≠ "relationType" →
            field_args item !! k = fieldArgs !! k)
    ∧ field_args item !! "type" = fieldArgs !! "type"
    ∧ field_args item !! "isRequired" = fieldArgs !! "isRequired".
Proof.
  intros (m & l & Hm) Hok.
  unfold addUnionField, default_reverseField, relationType_is. cbv zeta.
  assert (Hlen : (Z.of_nat (length (m :: l)) =? 0)%Z = false).
  { apply Z.eqb_neq. simpl. lia. }
  run with Hm. rewrite Hlen.
  destruct Hok as [Hrev|[o Hrev]]; run with Hrev; rewrite ?Hm.
  all: eexists _, _; split; [reflexivity|]; simpl.
  all: split; [by lookup_norm|]; split; [by lookup_norm|].
  all: split; [lookup_norm; reflexivity|].
  all: split; [by lookup_norm|].
  all: split; [|split; [intros; by lookup_norm|split; by lookup_norm]].
  all: intros o' k Ho' ? ?; try (rewrite Ho' in Hrev; discriminate Hrev);
    injection Ho' as <-; by lookup_norm.
Qed.
End Relations_more.

(** ** The further properties on examples *)

Section Examples_more.
#[local] Existing Instance sample_schema.

Lemma call_registers_item_of_model_witness :
  ∃ item : Field,
    (perform post_model
       (AddSimpleField (<["modelApiId" := VStr "Other"]> scenario_A)) []).2
    = registerChange item []
    ∧ field_args item !! "modelApiId" = Some (VStr "Post")
    ∧ field_mode item = Create
    ∧ field_type item = None.
Proof.
  exact (proj2 (call_registers_item_of_model post_model
                  (AddSimpleField (<["modelApiId" := VStr "Other"]> scenario_A))
                  [] _ _ eq_refl)).
Defined.

Lemma failed_call_registers_nothing_witness :
  (perform post_model (AddUnionField scenario_C)
     [new_Field {[ "apiId" := VStr "title" ]} Delete None]).2
  = [new_Field {[ "apiId" := VStr "title" ]} Delete None].
Proof.
  apply (failed_call_registers_nothing post_model (AddUnionField scenario_C)
           [new_Field {[ "apiId" := VStr "title" ]} Delete None] _
           (Throw (Error "models cannot be empty"))).
  - reflexivity.
  - discriminate.
Defined.

(** A chain of three calls whose second fails: the item of the first call
    stays, the third call is not made. *)
Example chain_stops_at_failure :
  chain post_model
    [DeleteField "title"; AddUnionField scenario_C; DeleteField "body"] []
  = (Throw (Error "models cannot be empty"),
     [new_Field {[ "apiId" := VStr "title"; "modelApiId" := VStr "Post" ]}
        Delete None]).
Proof. reflexivity. Qed.

Lemma addSimpleField_formRenderer_witness :
  ∃ item : Field,
    (addSimpleField post_model scenario_A []).2 = registerChange item []
    ∧ field_args item !! "formRenderer" = Some (VStr "GCMS_SINGLE_LINE").
Proof.
  assert (Hrun : addSimpleField post_model scenario_A []
                 = (Return post_model, (addSimpleField post_model scenario_A []).2))
    by reflexivity.
  destruct (addSimpleField_formRenderer post_model scenario_A [] _ _ Hrun)
    as (item & Hst & _ & Hdefault & _).
  exists item. split; [exact Hst|]. apply Hdefault; reflexivity.
Defined.

Lemma simple_field_validations_delegated_witness :
  (∃ item : Field,
     addSimpleField post_model rating_args []
     = (Return post_model, registerChange item [])
     ∧ field_args item !! "validations"
       = Some (VObj {[ "Int" := VObj
           {[ "range" := VObj {[ "min" := VNum 1; "max" := VNum 5 ]};
              "listItemCount" := VUndefined ]} ]}))
  ∧ addSimpleField post_model untyped_args []
    = (Throw (Error "field validations not supported for undefined"), []).
Proof.
  split.
  - exact (proj1 (proj1 (simple_field_validations_delegated
                           post_model rating_args [])
                    eq_refl _ eq_refl)).
  - exact (proj1 (proj1 (proj2 (simple_field_validations_delegated
                                  post_model untyped_args []))
                    eq_refl _ eq_refl)).
Defined.

Lemma updateSimpleField_keeps_attributes_witness :
  ∃ item : Field,
    (updateSimpleField post_model title_args []).2 = registerChange item []
    ∧ field_args item !! "displayName" = Some (VStr "Title")
    ∧ field_args item !! "formRenderer" = None.
Proof.
  assert (Hrun : updateSimpleField post_model title_args []
                 = (Return post_model, (updateSimpleField post_model title_args []).2))
    by reflexivity.
  destruct (updateSimpleField_keeps_attributes post_model title_args [] _ _ Hrun)
    as (item & Hst & Hkeep & Hrenderer).
  exists item. split; [exact Hst|]. split.
  - rewrite Hkeep by discriminate. reflexivity.
  - rewrite Hrenderer. reflexivity.
Defined.

Lemma enumerable_field_requires_enumeration_witness :
  addEnumerableField post_model {[ "apiId" := VStr "status" ]} []
  = (Throw (Error "enumerationApiId is required for enumerable field"), [])
  ∧ updateEnumerableField post_model {[ "apiId" := VStr "status" ]} []
    = (Return post_model,
       [new_Field {[ "apiId" := VStr "status"; "modelApiId" := VStr "Post" ]}
          Update (Some EnumerableField)]).
Proof.
  split.
  - exact (proj1 (enumerable_field_requires_enumeration
                    post_model {[ "apiId" := VStr "status" ]} []) eq_refl).
  - exact (proj2 (proj2 (enumerable_field_requires_enumeration
                           post_model {[ "apiId" := VStr "status" ]} []))).
Defined.

Lemma addRemoteField_refuses_non_object_headers_witness :
  addRemoteField post_model
    {[ "apiId" := VStr "weather";
       "remoteConfig" := VObj {[ "headers" := VArr [VStr "X-Key"] ]} ]} []
  = (Throw (Error "Headers in remote config has to be an object"), []).
Proof.
  apply (addRemoteField_refuses_non_object_headers post_model _
           {[ "headers" := VArr [VStr "X-Key"] ]}).
  - reflexivity.
  - reflexivity.
  - discriminate.
Defined.

Lemma addRemoteField_refuses_header_named_constructor_witness :
  addRemoteField post_model
    {[ "apiId" := VStr "weather";
       "remoteConfig" :=
         VObj {[ "headers" := VObj {[ "constructor" := VStr "x" ]} ]} ]} []
  = (Throw (Error "Headers in remote config has to be an object"), []).
Proof.
  apply (addRemoteField_refuses_header_named_constructor post_model _
           {[ "headers" := VObj {[ "constructor" := VStr "x" ]} ]}
           {[ "constructor" := VStr "x" ]} (VStr "x")).
  - reflexivity.
  - reflexivity.
  - reflexivity.
  - left. exists "x". reflexivity.
Defined.

Lemma addRemoteField_needs_remoteConfig_witness :
  addRemoteField post_model {[ "apiId" := VStr "weather" ]} []
  = (Throw TypeError, []).
Proof.
  apply (addRemoteField_needs_remoteConfig post_model
           {[ "apiId" := VStr "weather" ]} []).
  reflexivity.
Defined.

Lemma addRemoteField_type_and_defaults_witness :
  ∃ (item : Field) (rc : obj),
    addRemoteField post_model
      {[ "apiId" := VStr "weather";
         "type" := VStr "STRING";
         "remoteConfig" :=
           VObj {[ "url" := VStr "https://example.org"; "method" := VStr "POST" ]} ]}
      []
    = (Return post_model, registerChange item [])
    ∧ field_args item !! "type" = Some (VStr "REMOTE")
    ∧ field_args item !! "remoteConfig" = Some (VObj rc)
    ∧ rc !! "url" = Some (VStr "https://example.org")
    ∧ rc !! "method" = Some (VStr "POST")
    ∧ rc !! "payloadFieldApiIds" = Some (VArr []).
Proof.
  destruct (addRemoteField_type_and_defaults post_model
              {[ "apiId" := VStr "weather";
                 "type" := VStr "STRING";
                 "remoteConfig" :=
                   VObj {[ "url" := VStr "https://example.org";
                           "method" := VStr "POST" ]} ]}
              {[ "url" := VStr "https://example.org"; "method" := VStr "POST" ]}
              [])
    as (item & rc & Hrun & _ & Htype & Hrc & _ & Hkeep & _ & Hids & Hmethod & _);
    [reflexivity|left; reflexivity|].
  exists item, rc. split; [exact Hrun|]. split; [exact Htype|].
  split; [exact Hrc|]. split; [|split].
  - rewrite Hkeep by discriminate. reflexivity.
  - rewrite Hmethod by reflexivity. reflexivity.
  - apply Hids. reflexivity.
Defined.

Lemma addRelationalField_strips_and_keeps_witness :
  ∃ (item : Field) (rev : obj),
    addRelationalField post_model
      (<["reverseField" :=
           VObj {[ "apiId" := VStr "posts"; "displayName" := VStr "Posts" ]}]>
         (<["type" := VStr "STRING"]> cover_args)) []
    = (Return post_model, registerChange item [])
    ∧ field_args item !! "model" = None
    ∧ field_args item !! "relationType" = None
    ∧ field_args item !! "type" = Some (VStr "ASSET")
    ∧ field_args item !! "reverseField" = Some (VObj rev)
    ∧ rev !! "modelApiId" = Some (VStr "Asset")
    ∧ rev !! "apiId" = Some (VStr "posts")
    ∧ field_args item !! "apiId" = Some (VStr "cover").
Proof.
  destruct (addRelationalField_strips_and_keeps post_model
              (<["reverseField" :=
                   VObj {[ "apiId" := VStr "posts"; "displayName" := VStr "Posts" ]}]>
                 (<["type" := VStr "STRING"]> cover_args)) [])
    as (item & rev & Hrun & Hmodel & Hrel & Htype & Hrev & Hto & _ & Hrkeep & Hkeep);
    [right; eexists; reflexivity|].
  exists item, rev. split; [exact Hrun|]. split; [exact Hmodel|].
  split; [exact Hrel|]. split; [exact Htype|]. split; [exact Hrev|].
  split; [exact Hto|]. split.
  - rewrite (Hrkeep {[ "apiId" := VStr "posts"; "displayName" := VStr "Posts" ]}
               "apiId");
      [reflexivity|reflexivity|discriminate..|left; discriminate].
  - rewrite Hkeep by discriminate. reflexivity.
Defined.

Lemma addUnionField_strips_and_keeps_witness :
  ∃ (item : Field) (rev : obj),
    addUnionField post_model (<["isRequired" := VBool true]> content_args) []
    = (Return post_model, registerChange item [])
    ∧ field_args item !! "models" = None
    ∧ field_args item !! "relationType" = None
    ∧ field_args item !! "reverseField" = Some (VObj rev)
    ∧ rev !! "modelApiIds" = Some (VArr [VStr "Page"; VStr "Post"])
    ∧ field_args item !! "type" = None
    ∧ field_args item !! "isRequired" = Some (VBool true).
Proof.
  destruct (addUnionField_strips_and_keeps post_model
              (<["isRequired" := VBool true]> content_args) [])
    as (item & rev & Hrun & Hmodels & Hrel & Hrev & Hids & _ & _ & Htype & Hreq);
    [eexists _, _; reflexivity|left; reflexivity|].
  exists item, rev. repeat split; assumption.
Defined.
End Examples_more.
